(** * PPO single-device recipe: a shallow embedding of
      [recipes/ppo_full_finetune_single_device.py]

    The recipe object is a record threaded through a state-and-exception
    monad; Python integers are [Z] with Python's floor division and
    modulo (both raise [ZeroDivisionError] on a zero divisor); tensors
    are lists (rank 1) and lists of rows (rank 2); tensor entries are
    rationals, which idealise the floating-point arithmetic of the
    tensor library; the four models, the generation primitive and the
    loss are collaborators passed as parameters; the sequence helpers
    that the recipe imports from [torchtune.rlhf] and
    [torchtune.training] are a record of functions, with an instance
    modelled from the specification. *)

From Stdlib Require Import ZArith QArith Lia.
From stdpp Require Import base option list gmap.

Close Scope Q_scope.
Open Scope Z_scope.

(** ** Python primitives *)

Inductive exn :=
| ValueError | RuntimeError | ZeroDivisionError
| KeyError | TypeError | IndexError.

#[global] Instance exn_eq_dec : EqDecision exn.
Proof. solve_decision. Defined.

Module Py.

Definition result (A : Type) : Type := exn + A.

Definition is_raise {A} (r : result A) : Prop :=
  match r with inl _ => True | inr _ => False end.

(** [a // b] *)
Definition floordiv (a b : Z) : result Z :=
  if decide (b = 0) then inl ZeroDivisionError else inr (a / b).

(** [a % b] *)
Definition mod_ (a b : Z) : result Z :=
  if decide (b = 0) then inl ZeroDivisionError else inr (a mod b).

(** [range(start, stop, step)] *)
Definition range (start stop step : Z) : result (list Z) :=
  if decide (step = 0) then inl ValueError
  else
    let n := if decide (0 < step)
             then (stop - start + step - 1) / step
             else (start - stop - step - 1) / (- step) in
    inr ((λ k : nat, start + Z.of_nat k * step) <$> seq 0 (Z.to_nat n)).

(** Bound of a slice clamped to the sequence, as [slice.indices] does. *)
Definition clamp (len i : Z) : Z :=
  if decide (i < 0) then Z.max (i + len) 0 else Z.min i len.

(** [l[a:b]] *)
Definition slice {A} (l : list A) (a b : Z) : list A :=
  let len := Z.of_nat (length l) in
  let a' := clamp len a in
  let b' := clamp len b in
  take (Z.to_nat (b' - a')) (drop (Z.to_nat a') l).

(** [math.ceil(a / b)] for integers [a], [b] with [b > 0]: the exact
    ceiling of the quotient (the rounding and the range of the
    intermediate float are not modelled). *)
Definition ceil_div (a b : Z) : Z := - ((- a) / b).

(** Truth value of an [Optional[int]]. *)
Definition truthy (o : option Z) : bool :=
  match o with None => false | Some n => negb (n =? 0) end.

End Py.

(** ** Checkpoint dictionaries *)

(** The keys [training.MODEL_KEY], [training.OPT_KEY], ... used by the
    recipe: nine distinct constants. *)
Inductive ckpt_key :=
| MODEL_KEY | OPT_KEY | SEED_KEY | EPOCHS_KEY | TOTAL_EPOCHS_KEY
| MAX_STEPS_KEY | STEPS_KEY | RNG_KEY | DATALOADER_KEY.

#[global] Instance ckpt_key_eq_dec : EqDecision ckpt_key.
Proof. solve_decision. Defined.

Definition ckpt_key_code (k : ckpt_key) : nat :=
  match k with
  | MODEL_KEY => 0 | OPT_KEY => 1 | SEED_KEY => 2 | EPOCHS_KEY => 3
  | TOTAL_EPOCHS_KEY => 4 | MAX_STEPS_KEY => 5 | STEPS_KEY => 6
  | RNG_KEY => 7 | DATALOADER_KEY => 8
  end%nat.

Definition ckpt_key_of_code (n : nat) : option ckpt_key :=
  match n with
  | 0 => Some MODEL_KEY | 1 => Some OPT_KEY | 2 => Some SEED_KEY
  | 3 => Some EPOCHS_KEY | 4 => Some TOTAL_EPOCHS_KEY
  | 5 => Some MAX_STEPS_KEY | 6 => Some STEPS_KEY | 7 => Some RNG_KEY
  | 8 => Some DATALOADER_KEY | _ => None
  end%nat.

#[global] Program Instance ckpt_key_countable : Countable ckpt_key :=
  inj_countable ckpt_key_code ckpt_key_of_code _.
Next Obligation. by intros []. Qed.

(** Opaque payloads are named by a number: which weights, which
    optimizer state, which generator state.  Python stores whatever
    object the dictionary holds; [payload] is the number naming it. *)
Inductive ckpt_value :=
| VInt (n : Z)
| VWeights (w : nat)
| VOptimizer (o : nat)
| VRng (g : nat)
| VDataloader (d : nat).

#[global] Instance ckpt_value_eq_dec : EqDecision ckpt_value.
Proof. solve_decision. Defined.

Definition payload (v : ckpt_value) : Z :=
  match v with
  | VInt n => n
  | VWeights w | VOptimizer w | VRng w | VDataloader w => Z.of_nat w
  end.

Abbreviation ckpt_dict := (gmap ckpt_key ckpt_value).

(** ** Recipe state *)

Inductive warning :=
| WFewerStepsThanBatches
| WStepsNotMultipleOfBatches
| WRecipeStateMismatch.

Inductive event :=
| EvWarn (w : warning)
| EvGenerateTrajectory
| EvBackward (backward_batch_idxs : list Z)
| EvOptimizerStep
| EvZeroGrad
| EvLrSchedulerStep
| EvLogMetrics (step : Z)
| EvSavePolicy (epoch : Z) (d : ckpt_dict) (intermediate : bool)
| EvSaveValue (epoch : Z) (d : ckpt_dict) (intermediate : bool).

(** The options read by [_setup_training_parameters]. *)
Record DictConfig := {
  cfg_batch_size : Z;
  cfg_forward_batch_size : Z;
  cfg_ppo_epochs : Z;
  cfg_ppo_batch_size : Z;
  cfg_gradient_accumulation_steps : Z;
  cfg_enable_kv_cache : bool;
  cfg_num_steps : Z
}.

Record sizes := {
  batch_size : Z;
  _forward_batch_size : Z;
  _ppo_epochs : Z;
  _ppo_batch_size : Z;
  _gradient_accumulation_steps : Z;
  _ppo_backward_batch_size : Z;
  enable_kv_cache : bool
}.

Record counters := {
  seed : Z;
  _rng : nat;
  _total_steps : Z;
  _steps_run : Z;
  _total_epochs : Z;
  _epochs_run : Z;
  global_step : Z
}.

Record recipe := {
  rsizes : sizes;
  rcounters : counters;
  _optimizer_in_bwd : bool;
  (** [self._lr_scheduler is not None] *)
  _lr_scheduler : bool;
  (** [len(self._dataloader)] *)
  dataloader_len : nat;
  _log_every_n_steps : Z;
  policy_state_dict : nat;
  value_state_dict : nat;
  optimizer_state_dict : nat;
  optim_ckpt_wrapper_state_dict : nat;
  dataloader_state_dict : nat;
  trace : list event
}.

Definition with_sizes (z : sizes) (s : recipe) : recipe :=
  {| rsizes := z; rcounters := rcounters s;
     _optimizer_in_bwd := _optimizer_in_bwd s;
     _lr_scheduler := _lr_scheduler s;
     dataloader_len := dataloader_len s;
     _log_every_n_steps := _log_every_n_steps s;
     policy_state_dict := policy_state_dict s;
     value_state_dict := value_state_dict s;
     optimizer_state_dict := optimizer_state_dict s;
     optim_ckpt_wrapper_state_dict := optim_ckpt_wrapper_state_dict s;
     dataloader_state_dict := dataloader_state_dict s;
     trace := trace s |}.

Definition with_counters (c : counters) (s : recipe) : recipe :=
  {| rsizes := rsizes s; rcounters := c;
     _optimizer_in_bwd := _optimizer_in_bwd s;
     _lr_scheduler := _lr_scheduler s;
     dataloader_len := dataloader_len s;
     _log_every_n_steps := _log_every_n_steps s;
     policy_state_dict := policy_state_dict s;
     value_state_dict := value_state_dict s;
     optimizer_state_dict := optimizer_state_dict s;
     optim_ckpt_wrapper_state_dict := optim_ckpt_wrapper_state_dict s;
     dataloader_state_dict := dataloader_state_dict s;
     trace := trace s |}.

Definition with_trace (t : list event) (s : recipe) : recipe :=
  {| rsizes := rsizes s; rcounters := rcounters s;
     _optimizer_in_bwd := _optimizer_in_bwd s;
     _lr_scheduler := _lr_scheduler s;
     dataloader_len := dataloader_len s;
     _log_every_n_steps := _log_every_n_steps s;
     policy_state_dict := policy_state_dict s;
     value_state_dict := value_state_dict s;
     optimizer_state_dict := optimizer_state_dict s;
     optim_ckpt_wrapper_state_dict := optim_ckpt_wrapper_state_dict s;
     dataloader_state_dict := dataloader_state_dict s;
     trace := t |}.

Definition set_seed (v : Z) (c : counters) : counters :=
  {| seed := v; _rng := _rng c; _total_steps := _total_steps c;
     _steps_run := _steps_run c; _total_epochs := _total_epochs c;
     _epochs_run := _epochs_run c; global_step := global_step c |}.

Definition set_rng (v : nat) (c : counters) : counters :=
  {| seed := seed c; _rng := v; _total_steps := _total_steps c;
     _steps_run := _steps_run c; _total_epochs := _total_epochs c;
     _epochs_run := _epochs_run c; global_step := global_step c |}.

Definition set_total_steps (v : Z) (c : counters) : counters :=
  {| seed := seed c; _rng := _rng c; _total_steps := v;
     _steps_run := _steps_run c; _total_epochs := _total_epochs c;
     _epochs_run := _epochs_run c; global_step := global_step c |}.

Definition set_steps_run (v : Z) (c : counters) : counters :=
  {| seed := seed c; _rng := _rng c; _total_steps := _total_steps c;
     _steps_run := v; _total_epochs := _total_epochs c;
     _epochs_run := _epochs_run c; global_step := global_step c |}.

Definition set_total_epochs (v : Z) (c : counters) : counters :=
  {| seed := seed c; _rng := _rng c; _total_steps := _total_steps c;
     _steps_run := _steps_run c; _total_epochs := v;
     _epochs_run := _epochs_run c; global_step := global_step c |}.

Definition set_epochs_run (v : Z) (c : counters) : counters :=
  {| seed := seed c; _rng := _rng c; _total_steps := _total_steps c;
     _steps_run := _steps_run c; _total_epochs := _total_epochs c;
     _epochs_run := v; global_step := global_step c |}.

Definition set_global_step (v : Z) (c : counters) : counters :=
  {| seed := seed c; _rng := _rng c; _total_steps := _total_steps c;
     _steps_run := _steps_run c; _total_epochs := _total_epochs c;
     _epochs_run := _epochs_run c; global_step := v |}.

(** ** The recipe monad: state that survives a raised exception *)

Definition M (A : Type) : Type := recipe → Py.result A * recipe.

Definition ret {A} (a : A) : M A := λ s, (inr a, s).

Definition bind {A B} (m : M A) (k : A → M B) : M B :=
  λ s, match m s with
       | (inr a, s') => k a s'
       | (inl e, s') => (inl e, s')
       end.

Definition raise {A} (e : exn) : M A := λ s, (inl e, s).

Definition lift {A} (r : Py.result A) : M A := λ s, (r, s).

Definition gets {A} (f : recipe → A) : M A := λ s, (inr (f s), s).

Definition modify (f : recipe → recipe) : M unit := λ s, (inr tt, f s).

Definition emit (e : event) : M unit :=
  modify (λ s, with_trace (trace s ++ [e]) s).

Definition warn (w : warning) : M unit := emit (EvWarn w).

Definition when (b : bool) (m : M unit) : M unit := if b then m else ret tt.

Notation "'let*' x ':=' m 'in' k" := (bind m (λ x, k))
  (at level 10, x name, m at level 100, k at level 200).
Notation "m ';;' k" := (bind m (λ _, k))
  (at level 100, k at level 200, right associativity).

(** [for x in l: body(x)] *)
Fixpoint for_each {A} (l : list A) (body : A → M unit) : M unit :=
  match l with
  | [] => ret tt
  | x :: l' => body x ;; for_each l' body
  end.

Definition modify_counters (f : counters → counters) : M unit :=
  modify (λ s, with_counters (f (rcounters s)) s).

(** ** [_setup_training_parameters] *)

Definition _setup_training_parameters (cfg : DictConfig) : M unit :=
  modify (λ s, with_sizes
    {| batch_size := cfg_batch_size cfg;
       _forward_batch_size := cfg_forward_batch_size cfg;
       _ppo_epochs := cfg_ppo_epochs cfg;
       _ppo_batch_size := cfg_ppo_batch_size cfg;
       _gradient_accumulation_steps := cfg_gradient_accumulation_steps cfg;
       _ppo_backward_batch_size := _ppo_backward_batch_size (rsizes s);
       enable_kv_cache := enable_kv_cache (rsizes s) |} s) ;;
  let* bbs := lift (Py.floordiv (cfg_ppo_batch_size cfg)
                                (cfg_gradient_accumulation_steps cfg)) in
  modify (λ s, with_sizes
    {| batch_size := batch_size (rsizes s);
       _forward_batch_size := _forward_batch_size (rsizes s);
       _ppo_epochs := _ppo_epochs (rsizes s);
       _ppo_batch_size := _ppo_batch_size (rsizes s);
       _gradient_accumulation_steps := _gradient_accumulation_steps (rsizes s);
       _ppo_backward_batch_size := bbs;
       enable_kv_cache := cfg_enable_kv_cache cfg |} s) ;;
  let* z := gets rsizes in
  let* r1 := lift (Py.mod_ (batch_size z) (_forward_batch_size z)) in
  (if decide (r1 ≠ 0) then raise ValueError else ret tt) ;;
  let* r2 := lift (Py.mod_ (batch_size z) (_ppo_batch_size z)) in
  (if decide (r2 ≠ 0) then raise ValueError else ret tt) ;;
  let* r3 := lift (Py.mod_ (_ppo_batch_size z)
                           (_gradient_accumulation_steps z)) in
  (if decide (r3 ≠ 0) then raise ValueError else ret tt) ;;
  let* in_bwd := gets _optimizer_in_bwd in
  (if bool_decide (1 < _gradient_accumulation_steps z) && in_bwd
   then raise RuntimeError else ret tt) ;;
  let* total := lift (Py.floordiv (cfg_num_steps cfg) (batch_size z)) in
  modify_counters (set_total_steps total) ;;
  let* len := gets dataloader_len in
  let batches_per_epoch := Z.max 1 (Z.of_nat len) in
  modify_counters (set_total_epochs (Py.ceil_div total batches_per_epoch)) ;;
  (if decide (total = 0) then raise ValueError else ret tt) ;;
  when (bool_decide (total < Z.of_nat len)) (warn WFewerStepsThanBatches) ;;
  when (bool_decide (batches_per_epoch < total)
        && bool_decide (total mod batches_per_epoch ≠ 0))
       (warn WStepsNotMultipleOfBatches).

(** The configuration errors as the specification lists them; [(b | a)]
    is divisibility, [/] is floor division with [a / 0 = 0]. *)
Definition configuration_error (cfg : DictConfig) (optimizer_in_bwd : bool)
  : Prop :=
  ¬ (cfg_forward_batch_size cfg | cfg_batch_size cfg)
  ∨ ¬ (cfg_ppo_batch_size cfg | cfg_batch_size cfg)
  ∨ ¬ (cfg_gradient_accumulation_steps cfg | cfg_ppo_batch_size cfg)
  ∨ (1 < cfg_gradient_accumulation_steps cfg ∧ optimizer_in_bwd = true)
  ∨ cfg_num_steps cfg / cfg_batch_size cfg = 0.

(** ** [save_checkpoint] *)

(** [d.update(other)]: the entries of [other] win. *)
Definition dict_update (d other : ckpt_dict) : ckpt_dict := other ∪ d.

Definition save_checkpoint (epoch : Z) (is_intermediate_checkpoint : bool)
  : M unit :=
  let* s := gets id in
  let c := rcounters s in
  let policy_ckpt_dict : ckpt_dict :=
    {[ MODEL_KEY := VWeights (policy_state_dict s) ]} in
  let value_ckpt_dict : ckpt_dict :=
    {[ MODEL_KEY := VWeights (value_state_dict s) ]} in
  let policy_ckpt_dict :=
    if is_intermediate_checkpoint then
      let d := dict_update policy_ckpt_dict
        (<[SEED_KEY := VInt (seed c)]>
         (<[EPOCHS_KEY := VInt (_epochs_run c)]>
         (<[TOTAL_EPOCHS_KEY := VInt (_total_epochs c)]>
         (<[MAX_STEPS_KEY := VInt (_total_steps c)]>
         (<[STEPS_KEY := VInt (_steps_run c)]>
         (<[RNG_KEY := VRng (_rng c)]>
         (<[DATALOADER_KEY := VDataloader (dataloader_state_dict s)]>
          ∅))))))) in
      if negb (_optimizer_in_bwd s)
      then <[OPT_KEY := VOptimizer (optimizer_state_dict s)]> d
      else <[OPT_KEY := VOptimizer (optim_ckpt_wrapper_state_dict s)]> d
    else policy_ckpt_dict in
  emit (EvSavePolicy epoch policy_ckpt_dict is_intermediate_checkpoint) ;;
  emit (EvSaveValue epoch value_ckpt_dict false).

(** ** [_update_recipe_state] *)

(** [d[k]] *)
Definition dict_getitem (d : ckpt_dict) (k : ckpt_key) : M ckpt_value :=
  match d !! k with
  | Some v => ret v
  | None => raise KeyError
  end.

(** [try: body except E as e: handler(e)] for the exception class [E]. *)
Definition try_except {A} (body : M A) (E : exn) (handler : exn → M A)
  : M A :=
  λ s, match body s with
       | (inl e, s') =>
           if decide (e = E) then handler e s' else (inl e, s')
       | (inr a, s') => (inr a, s')
       end.

(** [e(...)] for an exception instance [e]: instances are not callable. *)
Definition call_exception_instance (e : exn) : M exn := raise TypeError.

(** [raise exc from cause]: both operands are evaluated, then [exc] is
    raised. *)
Definition raise_from {A} (exc cause : M exn) : M A :=
  let* x := exc in
  let* _c := cause in
  raise x.

Definition _update_recipe_state (ckpt : ckpt_dict) : M unit :=
  try_except
    (let* c := gets rcounters in
     let* v_seed := dict_getitem ckpt SEED_KEY in
     let* mismatch :=
       (if decide (VInt (seed c) ≠ v_seed) then ret true
        else
          let* v_max := dict_getitem ckpt MAX_STEPS_KEY in
          if decide (VInt (_total_steps c) ≠ v_max) then ret true
          else
            let* v_tot := dict_getitem ckpt TOTAL_EPOCHS_KEY in
            ret (bool_decide (VInt (_total_epochs c) ≠ v_tot))) in
     when mismatch (warn WRecipeStateMismatch) ;;
     let* v := dict_getitem ckpt SEED_KEY in
     modify_counters (set_seed (payload v)) ;;
     let* v := dict_getitem ckpt RNG_KEY in
     modify_counters (set_rng (Z.to_nat (payload v))) ;;
     let* v := dict_getitem ckpt STEPS_KEY in
     modify_counters (set_steps_run (payload v)) ;;
     let* v := dict_getitem ckpt MAX_STEPS_KEY in
     modify_counters (set_total_steps (payload v)) ;;
     let* v := dict_getitem ckpt TOTAL_EPOCHS_KEY in
     modify_counters (set_total_epochs (payload v)) ;;
     let* v := dict_getitem ckpt EPOCHS_KEY in
     modify_counters (set_epochs_run (payload v)))
    KeyError
    (λ e, raise_from (ret KeyError) (call_exception_instance e)).

(** The recipe-state keys a checkpoint needs for resumption. *)
Definition required_keys : list ckpt_key :=
  [SEED_KEY; RNG_KEY; STEPS_KEY; MAX_STEPS_KEY; TOTAL_EPOCHS_KEY; EPOCHS_KEY].

(** ** The training loop *)

Section Train.

(** [torch.randperm(n)] at PPO epoch [k] of training step [i]. *)
Variable randperm : Z → Z → Z → list Z.

Definition torch_randperm (i k n : Z) : M (list Z) :=
  if decide (n < 0) then raise RuntimeError else ret (randperm i k n).

(** One minibatch: the microbatches' [ppo_step] calls (each ends in one
    backward pass over the rows [backward_batch_idxs]), then the
    optimizer and the scheduler. *)
Definition ppo_minibatch (batch_idxs : list Z) (i : Z) : M unit :=
  let* z := gets rsizes in
  let mini_batch_idxs := Py.slice batch_idxs i (i + _ppo_batch_size z) in
  let* js := lift (Py.range 0 (_ppo_batch_size z)
                            (_ppo_backward_batch_size z)) in
  for_each js (λ j,
    let backward_batch_idxs :=
      Py.slice mini_batch_idxs j (j + _ppo_backward_batch_size z) in
    emit (EvBackward backward_batch_idxs)) ;;
  let* in_bwd := gets _optimizer_in_bwd in
  when (negb in_bwd) (emit EvOptimizerStep ;; emit EvZeroGrad) ;;
  let* sched := gets _lr_scheduler in
  when sched (emit EvLrSchedulerStep) ;;
  modify_counters (λ c, set_global_step (global_step c + 1) c).

Definition ppo_epoch (k : Z) : M unit :=
  let* z := gets rsizes in
  let* c := gets rcounters in
  let* batch_idxs := torch_randperm (_steps_run c) k (batch_size z) in
  let* starts := lift (Py.range 0 (batch_size z) (_ppo_batch_size z)) in
  for_each starts (ppo_minibatch batch_idxs).

(** Step 4 of a training step: the PPO epochs. *)
Definition ppo_optimise : M unit :=
  let* z := gets rsizes in
  let* ks := lift (Py.range 0 (_ppo_epochs z) 1) in
  for_each ks ppo_epoch.

(** The body of the loop over the dataloader, up to the test that ends
    training. *)
Definition train_step : M unit :=
  emit EvGenerateTrajectory ;;
  ppo_optimise ;;
  modify_counters (λ c, set_steps_run (_steps_run c + 1) c) ;;
  let* c := gets rcounters in
  let* n := gets _log_every_n_steps in
  let* r := lift (Py.mod_ (_steps_run c) n) in
  when (bool_decide (r = 0)) (emit (EvLogMetrics (global_step c))).

(** [for idx, batch in enumerate(self._dataloader)] with its [break];
    the result is [training_completed]. *)
Fixpoint run_batches (n : nat) : M bool :=
  match n with
  | O => ret false
  | S n' =>
      train_step ;;
      let* c := gets rcounters in
      if decide (_steps_run c = _total_steps c) then ret true
      else run_batches n'
  end.

(** The body of the loop over dataset epochs. *)
Definition run_epoch (curr_epoch : Z) : M bool :=
  let* len := gets dataloader_len in
  let* training_completed := run_batches len in
  modify_counters (λ c, set_epochs_run (_epochs_run c + 1) c) ;;
  save_checkpoint curr_epoch (negb training_completed) ;;
  ret training_completed.

Fixpoint run_epochs (epochs : list Z) : M unit :=
  match epochs with
  | [] => ret tt
  | curr_epoch :: rest =>
      let* training_completed := run_epoch curr_epoch in
      if training_completed then ret tt else run_epochs rest
  end.

Definition train : M unit :=
  let* in_bwd := gets _optimizer_in_bwd in
  when (negb in_bwd) (emit EvZeroGrad) ;;
  let* c := gets rcounters in
  let* epochs := lift (Py.range (_epochs_run c) (_total_epochs c) 1) in
  run_epochs epochs.

(** [recipe.setup], as far as its validation of the training
    parameters goes, followed by [recipe.train]. *)
Definition setup_then_train (cfg : DictConfig) : M unit :=
  _setup_training_parameters cfg ;; train.

End Train.

(** ** Reading a trace *)

Definition is_save (e : event) : bool :=
  match e with
  | EvSavePolicy _ _ _ | EvSaveValue _ _ _ => true
  | _ => false
  end.

(** The policy checkpoints of a trace: epoch and [intermediate] flag. *)
Fixpoint policy_saves (evs : list event) : list (Z * bool) :=
  match evs with
  | [] => []
  | EvSavePolicy epoch _ intermediate :: evs' =>
      (epoch, intermediate) :: policy_saves evs'
  | _ :: evs' => policy_saves evs'
  end.

(** A computation that saves no checkpoint: whatever its outcome, it
    only appends events other than saves to the trace. *)
Definition quiet {A} (m : M A) : Prop :=
  ∀ s, ∃ evs, trace (m s).2 = trace s ++ evs
              ∧ Forall (λ e, is_save e = false) evs.

(** The events of one minibatch: one backward pass per microbatch, of
    [width] rows each, then one optimizer step (with its [zero_grad]) and
    one scheduler step. *)
Definition is_minibatch (accum width : Z) (evs : list event) : Prop :=
  ∃ microbatches : list (list Z),
    Z.of_nat (length microbatches) = accum
    ∧ Forall (λ idxs : list Z, Z.of_nat (length idxs) = width) microbatches
    ∧ evs = (EvBackward <$> microbatches)
            ++ [EvOptimizerStep; EvZeroGrad; EvLrSchedulerStep].

(** [s'] is [s] after [n] more minibatches: the sizes and switches are
    those of [s], [global_step] has grown by [n], and the trace by the
    events of [n] minibatches. *)
Definition after_minibatches (n : nat) (s s' : recipe) : Prop :=
  rsizes s' = rsizes s
  ∧ _optimizer_in_bwd s' = _optimizer_in_bwd s
  ∧ _lr_scheduler s' = _lr_scheduler s
  ∧ _log_every_n_steps s' = _log_every_n_steps s
  ∧ dataloader_len s' = dataloader_len s
  ∧ global_step (rcounters s') = global_step (rcounters s) + Z.of_nat n
  ∧ ∃ minibatches : list (list event),
      length minibatches = n
      ∧ Forall (is_minibatch (_gradient_accumulation_steps (rsizes s))
                  (_ppo_batch_size (rsizes s)
                   / _gradient_accumulation_steps (rsizes s)))
          minibatches
      ∧ trace s' = trace s ++ concat minibatches.

(** A recipe whose sizes passed validation and are positive, with the
    optimizer outside the backward pass and a scheduler configured. *)
Definition ready (randperm : Z → Z → Z → list Z) (s : recipe) : Prop :=
  let z := rsizes s in
  _optimizer_in_bwd s = false
  ∧ _lr_scheduler s = true
  ∧ 0 < batch_size z
  ∧ 0 < _ppo_batch_size z
  ∧ 0 < _gradient_accumulation_steps z
  ∧ batch_size z mod _ppo_batch_size z = 0
  ∧ _ppo_batch_size z mod _gradient_accumulation_steps z = 0
  ∧ _ppo_backward_batch_size z
    = _ppo_batch_size z / _gradient_accumulation_steps z
  ∧ ∀ i k, length (randperm i k (batch_size z)) = Z.to_nat (batch_size z).

(** What a training step needs to run to its end. *)
Definition runnable (randperm : Z → Z → Z → list Z) (s : recipe) : Prop :=
  ready randperm s
  ∧ 0 ≤ _ppo_epochs (rsizes s)
  ∧ _log_every_n_steps s ≠ 0.

Definition count_events (p : event → bool) (evs : list event) : nat :=
  length (filter (λ e, p e = true) evs).

Definition is_backward (e : event) : bool :=
  match e with EvBackward _ => true | _ => false end.

Definition is_optimizer_step (e : event) : bool :=
  match e with EvOptimizerStep => true | _ => false end.

Definition is_scheduler_step (e : event) : bool :=
  match e with EvLrSchedulerStep => true | _ => false end.

(** ** Tensors *)

Notation "'let?' x ':=' m 'in' k" :=
  (match m with inl e => inl e | inr x => k end)
  (at level 10, x name, m at level 100, k at level 200).

(** [t[r, c]] *)
Definition entry {A} (t : list (list A)) (r c : nat) : option A :=
  t !! r ≫= (λ row : list A, row !! c).

(** Rank-2 tensors of one shape: as many rows, of the same widths. *)
Definition same_shape {A B} (t : list (list A)) (u : list (list B)) : bool :=
  bool_decide (length <$> t = length <$> u).

Definition masked_fill {A} (v : A) (mask : list bool) (row : list A)
  : list A :=
  zip_with (λ (m : bool) x, if m then v else x) mask row.

(** [t[mask] = v] for a rank-1 tensor and a boolean mask. *)
Definition setitem_mask1 {A} (t : list A) (mask : list bool) (v : A)
  : Py.result (list A) :=
  if bool_decide (length t = length mask) then inr (masked_fill v mask t)
  else inl IndexError.

(** [t[mask] = v] for a rank-2 tensor and a boolean mask. *)
Definition setitem_mask2 {A} (t : list (list A)) (mask : list (list bool))
  (v : A) : Py.result (list (list A)) :=
  if same_shape t mask then inr (zip_with (masked_fill v) mask t)
  else inl IndexError.

(** [l[i]] for a tensor index, which may not be negative. *)
Definition lookupZ {A} (l : list A) (i : Z) : option A :=
  if decide (i < 0) then None else l !! Z.to_nat i.

(** [t.gather(1, idx[:, None])], squeezed. *)
Fixpoint gather_rows {A} (t : list (list A)) (idx : list Z) {struct idx}
  : Py.result (list A) :=
  match idx, t with
  | [], _ => inr []
  | i :: idx', row :: t' =>
      match lookupZ row i with
      | Some x => let? rest := gather_rows t' idx' in inr (x :: rest)
      | None => inl RuntimeError
      end
  | _ :: _, [] => inl RuntimeError
  end.

(** [t.scatter_(1, idx.unsqueeze(-1), v)] *)
Fixpoint scatter_rows {A} (t : list (list A)) (idx : list Z) (v : A)
  {struct idx} : Py.result (list (list A)) :=
  match idx, t with
  | [], _ => inr t
  | i :: idx', row :: t' =>
      if decide (0 ≤ i < Z.of_nat (length row))
      then let? rest := scatter_rows t' idx' v in
           inr (<[Z.to_nat i := v]> row :: rest)
      else inl RuntimeError
  | _ :: _, [] => inl RuntimeError
  end.

(** [torch.cat([t, u], dim=1)] *)
Definition cat_dim1 {A} (t u : list (list A)) : Py.result (list (list A)) :=
  if bool_decide (length t = length u) then inr (zip_with app t u)
  else inl RuntimeError.

(** [t - u] for tensors of one shape (no broadcasting arises between the
    fields of a trajectory). *)
Definition tensor_sub (t u : list (list Q)) : Py.result (list (list Q)) :=
  if same_shape t u then inr (zip_with (zip_with Qminus) t u)
  else inl RuntimeError.

Definition Qsum (l : list Q) : Q := foldr Qplus 0%Q l.

(** [t.mean()] over all entries.  The mean of an empty tensor, which is
    NaN in the tensor library, is 0 here, as is any division by zero. *)
Definition mean (t : list (list Q)) : Q :=
  (Qsum (concat t) / inject_Z (Z.of_nat (length (concat t))))%Q.

(** [~mask] *)
Definition invert (mask : list (list bool)) : list (list bool) :=
  (λ row : list bool, negb <$> row) <$> mask.

(** ** Trajectories *)

Record Trajectory := {
  query_responses : list (list Z);
  logprobs : list (list Q);
  ref_logprobs : list (list Q);
  values : list (list Q);
  masks : list (list (list bool));
  position_ids : list (list Z);
  response_padding_masks : list (list bool);
  value_padding_masks : list (list bool);
  value_seq_idxs : list Z;
  scores : list Q;
  seq_lens : list Z
}.

Record PPOStats := {
  loss : Q;
  policy_loss : Q;
  value_loss : Q;
  ratios : Q;
  clipfrac : Q;
  approx_policy_kls : Q
}.

(** The hyperparameters set by [_setup_training_hyperparameters], and the
    tokenizer's [pad_id]. *)
Record hyperparameters := {
  _max_generated_tokens : Z;
  _min_response_length : option Z;
  _penalise_no_eos : bool;
  _reward_penalty : Q;
  _stop_token_ids : list Z;
  pad_id : Z
}.

(** The models and the loss.  Each function stands for a forward pass
    together with the reshaping the recipe applies to its output. *)
Record collaborators := {
  (** [generation.generate] with the policy model: the query-response
      pairs, and [rlhf.logits_to_logprobs] of the returned logits. *)
  policy_generate : list (list Z) → list (list Z) * list (list Q);
  get_causal_mask_from_padding_mask :
    list (list bool) → list (list (list bool));
  get_position_ids_from_padding_mask : list (list bool) → list (list Z);
  (** forward pass, [rlhf.truncate_sequence_for_logprobs] to the
      generated span, [rlhf.logits_to_logprobs] *)
  _ref_policy_model :
    list (list Z) → list (list Z) → list (list (list bool)) → Z →
    list (list Q);
  _policy_model :
    list (list Z) → list (list Z) → list (list (list bool)) → Z →
    list (list Q);
  (** forward pass, truncation to the generated span, [squeeze(-1)] *)
  _value_model :
    list (list Z) → list (list Z) → list (list (list bool)) → Z →
    list (list Q);
  (** forward pass over the whole sequence, one output per position *)
  _reward_model :
    list (list Z) → list (list Z) → list (list (list bool)) →
    list (list Q);
  _loss_fn :
    list (list Q) → list (list Q) → list (list Q) → list (list Q) →
    list (list Q) → list (list Q) → list (list bool) → list (list bool) →
    Q * Q * Q * Q * Q
}.

(** The sequence helpers of [torchtune.rlhf] and [torchtune.training]
    that [generate_trajectory] calls. *)
Record helpers := {
  truncate_sequence_at_first_stop_token :
    list (list Z) → list Z → Z → list (list bool) * list (list Z);
  get_unmasked_sequence_lengths : list (list bool) → list Z;
  get_reward_penalty_mask :
    list (list bool) → list Z → bool → option Z → list bool
}.

Section Recipe.

Variable self : hyperparameters.
Variable C : collaborators.
Variable H : helpers.

(** [input_ids.shape[1]] *)
Definition context_length_of (input_ids : list (list Z)) : Z :=
  Z.of_nat (length (hd [] input_ids)).

(** [query_responses[:, context_length:]] *)
Definition generated_span (query_responses : list (list Z))
  (context_length : Z) : list (list Z) :=
  (λ row : list Z, Py.slice row context_length (Z.of_nat (length row)))
    <$> query_responses.

(** [torch.where((seq_lens > 0) & (seq_lens < max - 1), seq_lens + 1,
    seq_lens)], one entry. *)
Definition value_seq_idx (seq_len : Z) : Z :=
  if bool_decide (0 < seq_len)
     && bool_decide (seq_len < _max_generated_tokens self - 1)
  then seq_len + 1 else seq_len.

Definition generate_trajectory (input_ids : list (list Z))
  : Py.result Trajectory :=
  let context_length := context_length_of input_ids in
  (* step 1 and step 2 *)
  let '(query_responses, logprobs) := policy_generate C input_ids in
  let responses := generated_span query_responses context_length in
  let query_response_padding_masks :=
    (λ row : list Z, (λ t, bool_decide (t ≠ pad_id self)) <$> row)
      <$> query_responses in
  let masks :=
    get_causal_mask_from_padding_mask C query_response_padding_masks in
  let position_ids :=
    get_position_ids_from_padding_mask C query_response_padding_masks in
  (* step 2.1 *)
  let ref_logprobs :=
    _ref_policy_model C query_responses position_ids masks
      context_length in
  (* step 3 *)
  let values :=
    _value_model C query_responses position_ids masks context_length in
  (* step 4 *)
  let '(response_padding_masks, responses) :=
    truncate_sequence_at_first_stop_token H responses
      (_stop_token_ids self) (pad_id self) in
  (* step 5 *)
  let? reward_input := cat_dim1 input_ids responses in
  let scores := _reward_model C reward_input position_ids masks in
  (* step 5.1 *)
  let seq_lens := get_unmasked_sequence_lengths H response_padding_masks in
  let? scores :=
    gather_rows scores ((λ n, n + context_length) <$> seq_lens) in
  (* step 5.2 *)
  let? scores :=
    if _penalise_no_eos self || Py.truthy (_min_response_length self)
    then
      let reward_penalty_mask :=
        get_reward_penalty_mask H response_padding_masks seq_lens
          (_penalise_no_eos self) (_min_response_length self) in
      setitem_mask1 scores reward_penalty_mask (_reward_penalty self)
    else inr scores in
  (* step 6 *)
  let? logprobs := setitem_mask2 logprobs response_padding_masks 1%Q in
  let? ref_logprobs :=
    setitem_mask2 ref_logprobs response_padding_masks 1%Q in
  (* step 6.1 *)
  let value_seq_idxs := value_seq_idx <$> seq_lens in
  let? value_padding_masks :=
    scatter_rows response_padding_masks value_seq_idxs false in
  let? values := setitem_mask2 values value_padding_masks 0%Q in
  inr {| query_responses := query_responses;
         logprobs := logprobs;
         ref_logprobs := ref_logprobs;
         values := values;
         masks := masks;
         position_ids := position_ids;
         response_padding_masks := response_padding_masks;
         value_padding_masks := value_padding_masks;
         value_seq_idxs := value_seq_idxs;
         scores := scores;
         seq_lens := seq_lens |}.

(** ** [ppo_step] *)

(** The policy log-probabilities at the current optimisation step,
    with the trajectory's response mask applied. *)
Definition pi_logprobs_of (trajectory : Trajectory) (context_length : Z)
  : Py.result (list (list Q)) :=
  setitem_mask2
    (_policy_model C (query_responses trajectory)
       (position_ids trajectory) (masks trajectory) context_length)
    (response_padding_masks trajectory) 1%Q.

(** The value estimates at the current optimisation step, with the
    trajectory's value mask applied. *)
Definition phi_values_of (trajectory : Trajectory) (context_length : Z)
  : Py.result (list (list Q)) :=
  setitem_mask2
    (_value_model C (query_responses trajectory)
       (position_ids trajectory) (masks trajectory) context_length)
    (value_padding_masks trajectory) 0%Q.

(** [(0.5 * (pi_logprobs - logprobs).pow(2)).mean()] *)
Definition approx_kl (pi_logprobs old_logprobs : list (list Q))
  : Py.result Q :=
  let? diff := tensor_sub pi_logprobs old_logprobs in
  inr (mean ((λ row : list Q, (λ d, (1 # 2) * d ^ 2)%Q <$> row) <$> diff)).

(** The diagnostic in the specification's words:
    [0.5 * mean((new_logprob - old_logprob)^2)]. *)
Definition half_mean_square (new_logprobs old_logprobs : list (list Q))
  : Py.result Q :=
  let? diff := tensor_sub new_logprobs old_logprobs in
  inr ((1 # 2) * mean ((λ row : list Q, (λ d, d ^ 2)%Q <$> row) <$> diff))%Q.

(** One PPO optimisation step.  The backward pass has no effect on the
    returned statistics and is left as a comment. *)
Definition ppo_step (gradient_accumulation_steps : Z)
  (trajectory : Trajectory) (advantages returns : list (list Q))
  (context_length : Z) : Py.result PPOStats :=
  let accum := inject_Z gradient_accumulation_steps in
  let? pi_logprobs := pi_logprobs_of trajectory context_length in
  let? phi_values := phi_values_of trajectory context_length in
  let '(loss, policy_loss, value_loss, ratios, clipfrac) :=
    _loss_fn C (logprobs trajectory) pi_logprobs advantages
      (values trajectory) phi_values returns
      (invert (response_padding_masks trajectory))
      (invert (value_padding_masks trajectory)) in
  let loss := (loss / accum)%Q in
  (* loss.backward() *)
  let? approx_policy_kls := approx_kl pi_logprobs (logprobs trajectory) in
  inr {| loss := loss;
         policy_loss := (policy_loss / accum)%Q;
         value_loss := (value_loss / accum)%Q;
         ratios := (ratios / accum)%Q;
         clipfrac := (clipfrac / accum)%Q;
         approx_policy_kls := (approx_policy_kls / accum)%Q |}.

End Recipe.

(** ** The sequence helpers *)

Module rlhf.

(** Modelled from the spec: [rlhf.truncate_sequence_at_first_stop_token]
    is not among the sources.  Each row is cut at its first stop
    token: the positions after it are marked in the padding mask and
    filled with the pad id; a row without a stop token stays as it
    is, with no position marked. *)
Fixpoint truncate_row (stop_tokens : list Z) (fill_value : Z)
  (stopped : bool) (row : list Z) : list bool * list Z :=
  match row with
  | [] => ([], [])
  | t :: row' =>
      let '(mask, out) :=
        truncate_row stop_tokens fill_value
          (stopped || bool_decide (t ∈ stop_tokens)) row' in
      (stopped :: mask, (if stopped then fill_value else t) :: out)
  end.

(** Modelled from the spec: the batched form of [truncate_row], the
    absent [rlhf.truncate_sequence_at_first_stop_token]. *)
Definition truncate_sequence_at_first_stop_token
  (sequences : list (list Z)) (stop_tokens : list Z) (fill_value : Z)
  : list (list bool) * list (list Z) :=
  let rows := truncate_row stop_tokens fill_value false <$> sequences in
  (fst <$> rows, snd <$> rows).

(** Modelled from the spec: [rlhf.get_reward_penalty_mask] is not among
    the sources.  With [penalise_no_eos], a row in which no stop token
    was generated (its padding mask marks nothing) is penalised; with
    a minimum response length, a row whose length is below it is
    penalised. *)
Definition get_reward_penalty_mask (padding_masks : list (list bool))
  (seq_lens : list Z) (penalise_no_eos : bool)
  (min_response_length : option Z) : list bool :=
  zip_with
    (λ (mask : list bool) (seq_len : Z),
       (penalise_no_eos && negb (existsb id mask))
       || match min_response_length with
          | Some m => bool_decide (seq_len < m)
          | None => false
          end)
    padding_masks seq_lens.

End rlhf.

Module training.

(** Modelled from the spec: the scan behind the absent
    [training.get_unmasked_sequence_lengths]; [acc] is the offset of the
    last unmarked position seen before offset [i]. *)
Fixpoint last_unmasked (i acc : nat) (mask : list bool) : nat :=
  match mask with
  | [] => acc
  | m :: mask' => last_unmasked (S i) (if m then acc else i) mask'
  end.

(** Modelled from the spec: [training.get_unmasked_sequence_lengths] is
    not among the sources.  The reward is read at the position of the
    last valid token, [seq_len + context_length], so a row's sequence
    length is the offset of its last valid generated token (0 when no
    position is valid). *)
Definition get_unmasked_sequence_lengths (mask : list (list bool))
  : list Z :=
  (λ row, Z.of_nat (last_unmasked 0 0 row)) <$> mask.

(** Modelled from the spec: the other wording for the absent
    [training.get_unmasked_sequence_lengths], in which a row's sequence
    length is the count of its valid generated tokens. *)
Definition count_unmasked (mask : list (list bool)) : list Z :=
  (λ row : list bool, Z.of_nat (length (filter (λ m, m = false) row)))
    <$> mask.

End training.

(** The helpers with sequence lengths as offsets of the last valid
    token. *)
Definition modelled_helpers : helpers :=
  {| truncate_sequence_at_first_stop_token :=
       rlhf.truncate_sequence_at_first_stop_token;
     get_unmasked_sequence_lengths := training.get_unmasked_sequence_lengths;
     get_reward_penalty_mask := rlhf.get_reward_penalty_mask |}.

(** The helpers with sequence lengths as counts of valid tokens. *)
Definition counting_helpers : helpers :=
  {| truncate_sequence_at_first_stop_token :=
       rlhf.truncate_sequence_at_first_stop_token;
     get_unmasked_sequence_lengths := training.count_unmasked;
     get_reward_penalty_mask := rlhf.get_reward_penalty_mask |}.
(** ** A worked instance *)

Module Example.

(** Three generated tokens per row, stop token 9, pad id 0. *)
Definition hp : hyperparameters :=
  {| _max_generated_tokens := 3;
     _min_response_length := Some 1;
     _penalise_no_eos := true;
     _reward_penalty := (-3)%Q;
     _stop_token_ids := [9];
     pad_id := 0 |}.

(** The policy continues the three prompts with [5 6 7] (no stop
    token), [9 6 7] (stop token first) and [5 9 7] (stop token
    second); the reward model scores a position by its token id. *)
Definition models : collaborators :=
  {| policy_generate := λ ids,
       (zip_with app ids [[5; 6; 7]; [9; 6; 7]; [5; 9; 7]],
        (λ _ : list Z, [(-1 # 2); (-1 # 3); (-1 # 4)]%Q) <$> ids);
     get_causal_mask_from_padding_mask := λ _, [];
     get_position_ids_from_padding_mask := λ _, [];
     _ref_policy_model := λ q _ _ _,
       (λ _ : list Z, [(-1 # 5); (-1 # 6); (-1 # 7)]%Q) <$> q;
     _policy_model := λ q _ _ _,
       (λ _ : list Z, [(-1 # 8); (-1 # 9); (-1 # 10)]%Q) <$> q;
     _value_model := λ q _ _ _,
       (λ _ : list Z, [2; 3; 4]%Q) <$> q;
     _reward_model := λ q _ _,
       (λ row : list Z, inject_Z <$> row) <$> q;
     _loss_fn := λ _ _ _ _ _ _ _ _, (1, 2, 3, 4, 5)%Q |}.

Definition input_ids : list (list Z) := [[1; 2]; [3; 4]; [1; 1]].

(** What [generate_trajectory] returns on [input_ids]. *)
Definition traj : Trajectory :=
  {| query_responses :=
       [[1; 2; 5; 6; 7]; [3; 4; 9; 6; 7]; [1; 1; 5; 9; 7]];
     logprobs :=
       [[(-1 # 2); (-1 # 3); (-1 # 4)]; [(-1 # 2); 1; 1];
        [(-1 # 2); (-1 # 3); 1]]%Q;
     ref_logprobs :=
       [[(-1 # 5); (-1 # 6); (-1 # 7)]; [(-1 # 5); 1; 1];
        [(-1 # 5); (-1 # 6); 1]]%Q;
     values := [[2; 3; 4]; [2; 0; 0]; [2; 3; 4]]%Q;
     masks := [];
     position_ids := [];
     response_padding_masks :=
       [[false; false; false]; [false; true; true];
        [false; false; true]];
     value_padding_masks :=
       [[false; false; false]; [false; true; true];
        [false; false; false]];
     value_seq_idxs := [2; 0; 2];
     scores := [(-3); (-3); 9]%Q;
     seq_lens := [2; 0; 1] |}.

Definition advantages : list (list Q) :=
  [[1; 1; 1]; [1; 1; 1]; [1; 1; 1]]%Q.

(** The identity permutation. *)
Definition randperm (_ _ n : Z) : list Z :=
  Z.of_nat <$> seq 0 (Z.to_nat n).

Definition cfg : DictConfig :=
  {| cfg_batch_size := 8;
     cfg_forward_batch_size := 4;
     cfg_ppo_epochs := 2;
     cfg_ppo_batch_size := 4;
     cfg_gradient_accumulation_steps := 2;
     cfg_enable_kv_cache := true;
     cfg_num_steps := 24 |}.

(** [batch_size = 10] with [ppo_batch_size = 3]. *)
Definition cfg_indivisible : DictConfig :=
  {| cfg_batch_size := 10;
     cfg_forward_batch_size := 5;
     cfg_ppo_epochs := 2;
     cfg_ppo_batch_size := 3;
     cfg_gradient_accumulation_steps := 1;
     cfg_enable_kv_cache := true;
     cfg_num_steps := 100 |}.

(** The recipe after [setup] with [cfg] and a dataloader of two
    batches: three steps in all, over two dataset epochs. *)
Definition recipe0 : recipe :=
  {| rsizes :=
       {| batch_size := 8; _forward_batch_size := 4; _ppo_epochs := 2;
          _ppo_batch_size := 4; _gradient_accumulation_steps := 2;
          _ppo_backward_batch_size := 2; enable_kv_cache := true |};
     rcounters :=
       {| seed := 42; _rng := 7; _total_steps := 3; _steps_run := 0;
          _total_epochs := 2; _epochs_run := 0; global_step := 0 |};
     _optimizer_in_bwd := false;
     _lr_scheduler := true;
     dataloader_len := 2;
     _log_every_n_steps := 1;
     policy_state_dict := 1;
     value_state_dict := 2;
     optimizer_state_dict := 3;
     optim_ckpt_wrapper_state_dict := 4;
     dataloader_state_dict := 5;
     trace := [] |}.

(** An intermediate checkpoint from which the seed was dropped. *)
Definition ckpt_without_seed : ckpt_dict :=
  <[MODEL_KEY := VWeights 1]>
  (<[OPT_KEY := VOptimizer 3]>
  (<[EPOCHS_KEY := VInt 1]>
  (<[TOTAL_EPOCHS_KEY := VInt 2]>
  (<[MAX_STEPS_KEY := VInt 3]>
  (<[STEPS_KEY := VInt 2]>
  (<[RNG_KEY := VRng 7]>
  (<[DATALOADER_KEY := VDataloader 5]> ∅))))))).

End Example.

(** * Properties *)

(** ** Tensor lemmas *)

Section TensorLemmas.
Context {A : Type}.
Implicit Types (t u : list (list A)) (mask : list (list bool)) (v : A).

Lemma masked_fill_lookup v (m : list bool) (row : list A) c :
  length row = length m →
  masked_fill v m row !! c =
    match m !! c with
    | Some true => Some v
    | Some false => row !! c
    | None => None
    end.
Proof.
  intros Hlen. unfold masked_fill. rewrite lookup_zip_with.
  destruct (m !! c) as [b|] eqn:Hm; simpl; [|done].
  destruct (row !! c) as [x|] eqn:Hrow; simpl.
  - by destruct b.
  - apply lookup_lt_Some in Hm. apply lookup_ge_None in Hrow. lia.
Qed.

Lemma same_shape_row {B} t (u : list (list B)) r :
  same_shape t u = true →
  length <$> (t !! r) = length <$> (u !! r).
Proof.
  unfold same_shape. intros Heq%bool_decide_eq_true.
  by rewrite <- !list_lookup_fmap, Heq.
Qed.

Lemma setitem_mask2_entry t mask v t' r c :
  setitem_mask2 t mask v = inr t' →
  entry t' r c =
    match entry mask r c with
    | Some true => Some v
    | Some false => entry t r c
    | None => None
    end.
Proof.
  unfold setitem_mask2. destruct (same_shape t mask) eqn:Hshape; [|done].
  intros [= <-]. pose proof (same_shape_row _ _ r Hshape) as Hrow.
  unfold entry. rewrite lookup_zip_with.
  destruct (mask !! r) as [m|], (t !! r) as [row|]; simplify_eq/=; try done.
  by apply masked_fill_lookup.
Qed.

Lemma scatter_rows_lookup t idx v t' :
  scatter_rows t idx v = inr t' →
  length t' = length t ∧
  ∀ r, t' !! r =
    match idx !! r with
    | Some i => (λ row, <[Z.to_nat i := v]> row) <$> (t !! r)
    | None => t !! r
    end.
Proof.
  revert t t'. induction idx as [|i idx IH]; intros t t'; simpl.
  - by intros [= <-].
  - destruct t as [|row t]; [done|]. case_decide; [|done].
    destruct (scatter_rows t idx v) as [|rest] eqn:Hrest; [done|].
    intros [= <-]. destruct (IH _ _ Hrest) as [Hlen Hlook].
    split; [simpl; by rewrite Hlen|]. intros [|r]; simpl; [done|]. apply Hlook.
Qed.

Lemma scatter_rows_in_range t idx v t' r i :
  scatter_rows t idx v = inr t' → idx !! r = Some i →
  ∃ row, t !! r = Some row ∧ 0 ≤ i < Z.of_nat (length row).
Proof.
  revert t t' r. induction idx as [|j idx IH]; intros t t' r; simpl; [done|].
  destruct t as [|row t]; [done|]. case_decide; [|done].
  destruct (scatter_rows t idx v) as [|rest] eqn:Hrest; [done|].
  intros _. destruct r as [|r]; simpl.
  - intros [= ->]. eauto.
  - eauto.
Qed.

Lemma gather_rows_lookup t idx (g : list A) :
  gather_rows t idx = inr g →
  length g = length idx ∧
  ∀ r i, idx !! r = Some i →
    ∃ row x, t !! r = Some row ∧ lookupZ row i = Some x ∧ g !! r = Some x.
Proof.
  revert t g. induction idx as [|i idx IH]; intros t g; simpl.
  - by intros [= <-].
  - destruct t as [|row t]; [done|].
    destruct (lookupZ row i) as [x|] eqn:Hx; [|done].
    destruct (gather_rows t idx) as [|rest] eqn:Hrest; [done|].
    intros [= <-]. destruct (IH _ _ Hrest) as [Hlen Hlook].
    split; [simpl; by rewrite Hlen|]. intros [|r] j; simpl.
    + intros [= ->]. eauto.
    + apply Hlook.
Qed.

End TensorLemmas.

(** ** What a returned trajectory is made of *)

Section TrajectoryFacts.
Variables (self : hyperparameters) (C : collaborators) (H : helpers).

Lemma generate_trajectory_inv input_ids traj :
  generate_trajectory self C H input_ids = inr traj →
  let ctx := context_length_of input_ids in
  let trunc :=
    truncate_sequence_at_first_stop_token H
      (generated_span (policy_generate C input_ids).1 ctx)
      (_stop_token_ids self) (pad_id self) in
  query_responses traj = (policy_generate C input_ids).1 ∧
  response_padding_masks traj = trunc.1 ∧
  seq_lens traj = get_unmasked_sequence_lengths H trunc.1 ∧
  value_seq_idxs traj = value_seq_idx self <$> seq_lens traj ∧
  scatter_rows (response_padding_masks traj) (value_seq_idxs traj) false
    = inr (value_padding_masks traj) ∧
  (∃ raw, setitem_mask2 raw (response_padding_masks traj) 1%Q
          = inr (logprobs traj)) ∧
  (∃ raw, setitem_mask2 raw (response_padding_masks traj) 1%Q
          = inr (ref_logprobs traj)) ∧
  (∃ raw, setitem_mask2 raw (value_padding_masks traj) 0%Q
          = inr (values traj)) ∧
  (∃ out gathered,
      gather_rows out ((λ n, n + ctx) <$> seq_lens traj) = inr gathered ∧
      (if _penalise_no_eos self || Py.truthy (_min_response_length self)
       then setitem_mask1 gathered
              (get_reward_penalty_mask H (response_padding_masks traj)
                 (seq_lens traj) (_penalise_no_eos self)
                 (_min_response_length self))
              (_reward_penalty self)
       else inr gathered) = inr (scores traj)).
Proof.
  unfold generate_trajectory.
  destruct (policy_generate C input_ids) as [qr lp]; simpl.
  destruct (truncate_sequence_at_first_stop_token H _ _ _)
    as [rpm resp]; simpl.
  destruct (cat_dim1 _ _) as [|rin]; [done|].
  destruct (gather_rows _ _) as [|g] eqn:Hg; [done|].
  destruct (if _penalise_no_eos self || _ then _ else _)
    as [|sc] eqn:Hsc; [done|].
  destruct (setitem_mask2 lp rpm _) as [|lp'] eqn:Hlp; [done|].
  destruct (setitem_mask2 (_ref_policy_model _ _ _ _ _) rpm _)
    as [|rlp'] eqn:Hrlp; [done|].
  destruct (scatter_rows rpm _ _) as [|vpm] eqn:Hvpm; [done|].
  destruct (setitem_mask2 (_value_model _ _ _ _ _) vpm _)
    as [|vals] eqn:Hvals; [done|].
  intros [= <-]; simpl. eauto 15.
Qed.

End TrajectoryFacts.

Lemma value_padding_row self C H input_ids traj r :
  generate_trajectory self C H input_ids = inr traj →
  value_padding_masks traj !! r =
    match value_seq_idxs traj !! r with
    | Some i =>
        (λ row, <[Z.to_nat i := false]> row)
          <$> (response_padding_masks traj !! r)
    | None => response_padding_masks traj !! r
    end.
Proof.
  intros Htraj.
  destruct (generate_trajectory_inv _ _ _ _ _ Htraj)
    as (_ & _ & _ & _ & Hscatter & _).
  by destruct (scatter_rows_lookup _ _ _ _ Hscatter) as [_ ->].
Qed.

Lemma value_seq_idx_in_range self C H input_ids traj r i :
  generate_trajectory self C H input_ids = inr traj →
  value_seq_idxs traj !! r = Some i →
  ∃ row, response_padding_masks traj !! r = Some row
         ∧ 0 ≤ i < Z.of_nat (length row).
Proof.
  intros Htraj Hi.
  destruct (generate_trajectory_inv _ _ _ _ _ Htraj)
    as (_ & _ & _ & _ & Hscatter & _).
  eapply scatter_rows_in_range; eauto.
Qed.

(** ** Masking *)

(** C3: in a trajectory that [generate_trajectory] returns, the policy and
    the reference log-probabilities are 1.0 wherever
    [response_padding_masks] is true, and the values are 0.0 wherever
    [value_padding_masks] is true; in [ppo_step], the recomputed policy
    log-probabilities and values that go into the loss are masked the same
    way, with the same masks; and the sentinel 1.0 is not zero. *)
Theorem masked_positions_hold_sentinels self C H :
  (∀ input_ids traj r t,
     generate_trajectory self C H input_ids = inr traj →
     (entry (response_padding_masks traj) r t = Some true →
      entry (logprobs traj) r t = Some 1%Q
      ∧ entry (ref_logprobs traj) r t = Some 1%Q)
     ∧ (entry (value_padding_masks traj) r t = Some true →
        entry (values traj) r t = Some 0%Q))
  ∧ (∀ accum trajectory advantages returns ctx stats r t,
       ppo_step C accum trajectory advantages returns ctx = inr stats →
       ∃ pi_logprobs phi_values,
         pi_logprobs_of C trajectory ctx = inr pi_logprobs
         ∧ phi_values_of C trajectory ctx = inr phi_values
         ∧ loss stats =
             ((_loss_fn C (logprobs trajectory) pi_logprobs advantages
                 (values trajectory) phi_values returns
                 (invert (response_padding_masks trajectory))
                 (invert (value_padding_masks trajectory))).1.1.1.1
              / inject_Z accum)%Q
         ∧ (entry (response_padding_masks trajectory) r t = Some true →
            entry pi_logprobs r t = Some 1%Q)
         ∧ (entry (value_padding_masks trajectory) r t = Some true →
            entry phi_values r t = Some 0%Q))
  ∧ ¬ (1 == 0)%Q.
Proof.
  split; [|split; [|done]].
  - intros input_ids traj r t Htraj.
    destruct (generate_trajectory_inv _ _ _ _ _ Htraj)
      as (_ & _ & _ & _ & _ & [lp Hlp] & [rlp Hrlp] & [vs Hvs] & _).
    split.
    + intros Hmask.
      rewrite (setitem_mask2_entry _ _ _ _ r t Hlp),
        (setitem_mask2_entry _ _ _ _ r t Hrlp).
      by rewrite Hmask.
    + intros Hmask. rewrite (setitem_mask2_entry _ _ _ _ r t Hvs).
      by rewrite Hmask.
  - intros accum trajectory advantages returns ctx stats r t.
    unfold ppo_step.
    destruct (pi_logprobs_of C trajectory ctx) as [|pi] eqn:Hpi; [done|].
    destruct (phi_values_of C trajectory ctx) as [|phi] eqn:Hphi; [done|].
    destruct (_loss_fn C _ _ _ _ _ _ _ _) as [[[[l pl] vl] ra] cf] eqn:Hloss.
    destruct (approx_kl pi _) as [|kl]; [done|].
    intros [= <-]. exists pi, phi. rewrite Hloss. simpl.
    repeat split.
    + intros Hmask. rewrite (setitem_mask2_entry _ _ _ _ r t Hpi).
      by rewrite Hmask.
    + intros Hmask. rewrite (setitem_mask2_entry _ _ _ _ r t Hphi).
      by rewrite Hmask.
Qed.

(** C6: in a trajectory that [generate_trajectory] returns,
    [value_padding_masks] is true only where [response_padding_masks] is
    true; so it is true at no position before the first true position of
    [response_padding_masks]; and the two masks of a row agree everywhere
    except, at most, at the one position [value_seq_idxs] names. *)
Theorem value_mask_within_response_mask self C H input_ids traj :
  generate_trajectory self C H input_ids = inr traj →
  (∀ r t, entry (value_padding_masks traj) r t = Some true →
          entry (response_padding_masks traj) r t = Some true)
  ∧ (∀ r (first : nat),
       (∀ t, (t < first)%nat →
             entry (response_padding_masks traj) r t ≠ Some true) →
       ∀ t, (t < first)%nat →
            entry (value_padding_masks traj) r t ≠ Some true)
  ∧ (∀ r t, value_seq_idxs traj !! r ≠ Some (Z.of_nat t) →
            entry (value_padding_masks traj) r t
            = entry (response_padding_masks traj) r t).
Proof.
  intros Htraj.
  assert (Hsub : ∀ r t, entry (value_padding_masks traj) r t = Some true →
                        entry (response_padding_masks traj) r t = Some true).
  { intros r t. unfold entry. rewrite (value_padding_row _ _ _ _ _ r Htraj).
    destruct (value_seq_idxs traj !! r) as [i|]; [|done].
    destruct (response_padding_masks traj !! r) as [row|]; simpl; [|done].
    destruct (decide (Z.to_nat i = t)) as [<-|Hne].
    - intros Hrow. pose proof (lookup_lt_Some _ _ _ Hrow) as Hlt.
      rewrite length_insert in Hlt.
      by rewrite list_lookup_insert_eq in Hrow.
    - by rewrite list_lookup_insert_ne. }
  split; [done|]. split.
  - intros r first Hbefore t Hlt Hval. by apply (Hbefore t Hlt), Hsub.
  - intros r t Hidx. unfold entry.
    rewrite (value_padding_row _ _ _ _ _ r Htraj).
    destruct (value_seq_idxs traj !! r) as [i|] eqn:Hi; [|done].
    destruct (value_seq_idx_in_range _ _ _ _ _ _ _ Htraj Hi)
      as (row & -> & Hrange). simpl.
    apply list_lookup_insert_ne. intros <-. apply Hidx. f_equal. lia.
Qed.

(** C10: in a trajectory that [generate_trajectory] returns, every row's
    [value_padding_masks] is false at the position [value_seq_idxs] gives
    for the row, so each such row keeps a valid value position; for a row
    with [seq_lens = 0] it is position 0. *)
Theorem value_mask_cleared_at_value_seq_idx self C H input_ids traj :
  generate_trajectory self C H input_ids = inr traj →
  (∀ r i, value_seq_idxs traj !! r = Some i →
          0 ≤ i ∧ entry (value_padding_masks traj) r (Z.to_nat i) = Some false)
  ∧ (∀ r n, seq_lens traj !! r = Some n →
            (∃ t, entry (value_padding_masks traj) r t = Some false)
            ∧ (n = 0 → entry (value_padding_masks traj) r 0 = Some false)).
Proof.
  intros Htraj.
  assert (Hclear : ∀ r i, value_seq_idxs traj !! r = Some i →
            0 ≤ i
            ∧ entry (value_padding_masks traj) r (Z.to_nat i) = Some false).
  { intros r i Hi.
    destruct (value_seq_idx_in_range _ _ _ _ _ _ _ Htraj Hi)
      as (row & Hrow & Hrange).
    split; [lia|]. unfold entry.
    rewrite (value_padding_row _ _ _ _ _ r Htraj), Hi, Hrow. simpl.
    apply list_lookup_insert_eq. lia. }
  split; [done|]. intros r n Hn.
  destruct (generate_trajectory_inv _ _ _ _ _ Htraj)
    as (_ & _ & _ & Hidx & _).
  assert (Hi : value_seq_idxs traj !! r = Some (value_seq_idx self n))
    by (by rewrite Hidx, list_lookup_fmap, Hn).
  destruct (Hclear _ _ Hi) as [_ Hfalse]. split; [eauto|].
  intros ->. by unfold value_seq_idx in Hfalse.
Qed.

(** ** The reward penalty *)

(** Whatever rows [get_reward_penalty_mask] marks, a marked row's score
    is the penalty. *)
Lemma marked_row_scores_penalty self C H input_ids traj r :
  generate_trajectory self C H input_ids = inr traj →
  _penalise_no_eos self || Py.truthy (_min_response_length self) = true →
  get_reward_penalty_mask H (response_padding_masks traj) (seq_lens traj)
    (_penalise_no_eos self) (_min_response_length self) !! r = Some true →
  scores traj !! r = Some (_reward_penalty self).
Proof.
  intros Htraj Hguard Hmarked.
  destruct (generate_trajectory_inv _ _ _ _ _ Htraj)
    as (_ & _ & _ & _ & _ & _ & _ & _ & out & g & _ & Hscores).
  rewrite Hguard in Hscores. unfold setitem_mask1 in Hscores.
  case_bool_decide as Hlen; [|done]. injection Hscores as <-.
  rewrite masked_fill_lookup by done. by rewrite Hmarked.
Qed.

(** Without the guard of step 5.2 the scores are the reward model's
    outputs at [seq_lens + context_length]. *)
Lemma unpenalised_scores self C H input_ids traj :
  generate_trajectory self C H input_ids = inr traj →
  _penalise_no_eos self || Py.truthy (_min_response_length self) = false →
  ∃ out, gather_rows out
           ((λ n, n + context_length_of input_ids) <$> seq_lens traj)
         = inr (scores traj).
Proof.
  intros Htraj Hguard.
  destruct (generate_trajectory_inv _ _ _ _ _ Htraj)
    as (_ & _ & _ & _ & _ & _ & _ & _ & out & g & Hg & Hscores).
  rewrite Hguard in Hscores. injection Hscores as <-. eauto.
Qed.

(** ** Rows without a stop token, under the modelled helpers *)

Lemma truncate_row_no_stop stop_tokens fill_value (row : list Z) :
  Forall (λ t, t ∉ stop_tokens) row →
  rlhf.truncate_row stop_tokens fill_value false row
  = (replicate (length row) false, row).
Proof.
  induction 1 as [|t row Ht _ IH]; simpl; [done|].
  rewrite bool_decide_eq_false_2 by done. by rewrite IH.
Qed.

Lemma last_unmasked_all_valid (n i acc : nat) :
  training.last_unmasked i acc (replicate n false)
  = match n with O => acc | S n' => (i + n')%nat end.
Proof.
  revert i acc. induction n as [|n IH]; intros i acc; simpl; [done|].
  rewrite IH. destruct n; lia.
Qed.

Lemma existsb_replicate_false (n : nat) :
  existsb id (replicate n false) = false.
Proof. by induction n. Qed.

Section ModelledRows.
Variables (self : hyperparameters) (C : collaborators).
Variables (input_ids : list (list Z)) (traj : Trajectory).
Hypothesis Htraj :
  generate_trajectory self C modelled_helpers input_ids = inr traj.

Lemma modelled_mask_row r row :
  generated_span (query_responses traj) (context_length_of input_ids) !! r
    = Some row →
  response_padding_masks traj !! r
  = Some (rlhf.truncate_row (_stop_token_ids self) (pad_id self)
            false row).1.
Proof.
  destruct (generate_trajectory_inv _ _ _ _ _ Htraj)
    as (-> & -> & _). simpl.
  unfold rlhf.truncate_sequence_at_first_stop_token. simpl.
  intros Hrow. by rewrite !list_lookup_fmap, Hrow.
Qed.

Lemma modelled_seq_len r :
  seq_lens traj !! r
  = (λ mask, Z.of_nat (training.last_unmasked 0 0 mask))
      <$> (response_padding_masks traj !! r).
Proof.
  destruct (generate_trajectory_inv _ _ _ _ _ Htraj)
    as (_ & Hmask & -> & _). rewrite <- Hmask. simpl.
  unfold training.get_unmasked_sequence_lengths.
  by rewrite list_lookup_fmap.
Qed.

Lemma modelled_value_seq_idx r :
  value_seq_idxs traj !! r = value_seq_idx self <$> (seq_lens traj !! r).
Proof.
  destruct (generate_trajectory_inv _ _ _ _ _ Htraj)
    as (_ & _ & _ & -> & _). by rewrite list_lookup_fmap.
Qed.

Lemma modelled_penalty r mask n :
  response_padding_masks traj !! r = Some mask →
  seq_lens traj !! r = Some n →
  (_penalise_no_eos self && negb (existsb id mask))
  || match _min_response_length self with
     | Some m => bool_decide (n < m)
     | None => false
     end = true →
  _penalise_no_eos self || Py.truthy (_min_response_length self) = true →
  scores traj !! r = Some (_reward_penalty self).
Proof.
  intros Hmask Hn Hflag Hguard.
  apply (marked_row_scores_penalty _ _ _ _ _ r Htraj Hguard). simpl.
  unfold rlhf.get_reward_penalty_mask.
  by rewrite lookup_zip_with, Hmask, Hn; simpl; rewrite Hflag.
Qed.

End ModelledRows.

(** A sequence length never reaches the width of the response mask,
    whatever the helpers compute: [scatter_] would raise. *)
Lemma seq_len_below_mask_width self C H input_ids traj r n :
  generate_trajectory self C H input_ids = inr traj →
  seq_lens traj !! r = Some n →
  ∃ mask, response_padding_masks traj !! r = Some mask
          ∧ n < Z.of_nat (length mask).
Proof.
  intros Htraj Hn.
  destruct (generate_trajectory_inv _ _ _ _ _ Htraj)
    as (_ & _ & _ & Hidx & _).
  assert (Hi : value_seq_idxs traj !! r = Some (value_seq_idx self n))
    by (by rewrite Hidx, list_lookup_fmap, Hn).
  destruct (value_seq_idx_in_range _ _ _ _ _ _ _ Htraj Hi)
    as (mask & Hmask & Hrange).
  exists mask. split; [done|]. unfold value_seq_idx in Hrange.
  destruct (_ && _); lia.
Qed.

(** C2, amended: whatever the helpers, a sequence length of a returned
    trajectory is below the width of its row of [response_padding_masks],
    and from [max_generated_tokens - 1] on it is not shifted in
    [value_seq_idxs].  Under the modelled helpers, a row whose
    [max_generated_tokens] generated tokens hold no stop token has
    [seq_lens = max_generated_tokens - 1] (the offset of its last token),
    an all-false row of [response_padding_masks], and
    [value_seq_idxs = seq_lens]. *)
Theorem row_without_stop_token self C input_ids traj r :
  (∀ H n,
     generate_trajectory self C H input_ids = inr traj →
     seq_lens traj !! r = Some n →
     (∃ mask, response_padding_masks traj !! r = Some mask
              ∧ n < Z.of_nat (length mask))
     ∧ (_max_generated_tokens self - 1 ≤ n →
        value_seq_idxs traj !! r = Some n))
  ∧ (∀ row,
       generate_trajectory self C modelled_helpers input_ids = inr traj →
       generated_span (query_responses traj) (context_length_of input_ids)
         !! r = Some row →
       Forall (λ t, t ∉ _stop_token_ids self) row →
       Z.of_nat (length row) = _max_generated_tokens self →
       seq_lens traj !! r = Some (_max_generated_tokens self - 1)
       ∧ response_padding_masks traj !! r
         = Some (replicate (length row) false)
       ∧ value_seq_idxs traj !! r = seq_lens traj !! r).
Proof.
  split.
  { intros H n Htraj Hn. split; [by eapply seq_len_below_mask_width|].
    intros Hlast.
    destruct (generate_trajectory_inv _ _ _ _ _ Htraj)
      as (_ & _ & _ & -> & _).
    rewrite list_lookup_fmap, Hn. simpl. f_equal. unfold value_seq_idx.
    rewrite (bool_decide_eq_false_2 (n < _ - 1)) by lia.
    by rewrite andb_false_r. }
  intros row Htraj Hrow Hstop Hlen.
  pose proof (modelled_mask_row _ _ _ _ Htraj _ _ Hrow) as Hmask.
  rewrite truncate_row_no_stop in Hmask by done. simpl in Hmask.
  pose proof (modelled_seq_len _ _ _ _ Htraj r) as Hseq.
  rewrite Hmask in Hseq. simpl in Hseq.
  rewrite last_unmasked_all_valid in Hseq.
  destruct (seq_len_below_mask_width _ _ _ _ _ _ _ Htraj Hseq)
    as (mask & Hmask' & Hwidth).
  rewrite Hmask in Hmask'. injection Hmask' as <-.
  rewrite length_replicate in Hwidth.
  destruct (length row) as [|n'] eqn:Hn; [lia|].
  assert (Hval : Z.of_nat (0 + n') = _max_generated_tokens self - 1) by lia.
  rewrite Hval in Hseq. split; [done|]. split; [done|].
  rewrite (modelled_value_seq_idx _ _ _ _ Htraj), Hseq. simpl.
  f_equal. unfold value_seq_idx.
  rewrite (bool_decide_eq_false_2 (_ - 1 < _ - 1)) by lia.
  by rewrite andb_false_r.
Qed.


(** ** The approximate KL diagnostic *)

Lemma concat_fmap_fmap {A B} (f : A → B) (t : list (list A)) :
  concat ((λ row : list A, f <$> row) <$> t) = f <$> concat t.
Proof.
  induction t as [|row t IH]; csimpl; [done|]. by rewrite IH, fmap_app.
Qed.

Lemma Qsum_scale (c : Q) (f : Q → Q) (l : list Q) :
  (Qsum ((λ x, c * f x)%Q <$> l) == c * Qsum (f <$> l))%Q.
Proof.
  induction l as [|x l IH]; cbn [Qsum foldr fmap list_fmap].
  - ring.
  - fold (Qsum ((λ x, c * f x)%Q <$> l)). fold (Qsum (f <$> l)).
    rewrite IH. ring.
Qed.

Lemma mean_scale (c : Q) (f : Q → Q) (t : list (list Q)) :
  (mean ((λ row : list Q, (λ x, c * f x)%Q <$> row) <$> t)
   == c * mean ((λ row : list Q, f <$> row) <$> t))%Q.
Proof.
  unfold mean.
  rewrite (concat_fmap_fmap (λ x, c * f x)%Q), (concat_fmap_fmap f).
  rewrite !length_fmap, Qsum_scale.
  unfold Qdiv. ring.
Qed.


(** ** Validation of the training parameters *)

Ltac run_recipe :=
  unfold bind, lift, gets, modify, modify_counters, raise, ret, when, warn,
    emit, Py.floordiv, Py.mod_; simpl.

Lemma setup_outcome cfg s :
  (_setup_training_parameters cfg s).1 =
    let bs := cfg_batch_size cfg in
    let fbs := cfg_forward_batch_size cfg in
    let ppo := cfg_ppo_batch_size cfg in
    let gas := cfg_gradient_accumulation_steps cfg in
    if decide (gas = 0) then inl ZeroDivisionError
    else if decide (fbs = 0) then inl ZeroDivisionError
    else if decide (bs mod fbs ≠ 0) then inl ValueError
    else if decide (ppo = 0) then inl ZeroDivisionError
    else if decide (bs mod ppo ≠ 0) then inl ValueError
    else if decide (ppo mod gas ≠ 0) then inl ValueError
    else if bool_decide (1 < gas) && _optimizer_in_bwd s
         then inl RuntimeError
    else if decide (bs = 0) then inl ZeroDivisionError
    else if decide (cfg_num_steps cfg / bs = 0) then inl ValueError
    else inr tt.
Proof.
  unfold _setup_training_parameters. run_recipe.
  repeat (first [case_decide | case_bool_decide
                | destruct (_optimizer_in_bwd s) eqn:?]; simpl; try done).
Qed.

Lemma setup_raise_keeps_trace cfg s :
  Py.is_raise (_setup_training_parameters cfg s).1 →
  trace (_setup_training_parameters cfg s).2 = trace s.
Proof.
  unfold _setup_training_parameters. run_recipe.
  repeat (first [case_decide | case_bool_decide
                | destruct (_optimizer_in_bwd s) eqn:?]; simpl; try done).
Qed.

Lemma configuration_error_zero cfg in_bwd :
  cfg_batch_size cfg = 0 ∨ cfg_forward_batch_size cfg = 0
  ∨ cfg_ppo_batch_size cfg = 0 ∨ cfg_gradient_accumulation_steps cfg = 0 →
  configuration_error cfg in_bwd.
Proof.
  unfold configuration_error. intros Hzero.
  destruct (decide (cfg_batch_size cfg = 0)) as [Hbs|Hbs].
  { do 4 right. rewrite Hbs. apply Z.div_0_r. }
  destruct (decide (cfg_forward_batch_size cfg = 0)) as [->|Hfbs].
  { left. by intros ?%Z.divide_0_l. }
  destruct (decide (cfg_ppo_batch_size cfg = 0)) as [Hppo|Hppo].
  { right; left. rewrite Hppo. by intros ?%Z.divide_0_l. }
  destruct Hzero as [?|[?|[?| ->]]]; try done.
  do 2 right; left. by intros ?%Z.divide_0_l.
Qed.


Lemma setup_sizes cfg s :
  let z := rsizes (_setup_training_parameters cfg s).2 in
  batch_size z = cfg_batch_size cfg
  ∧ _forward_batch_size z = cfg_forward_batch_size cfg
  ∧ _ppo_batch_size z = cfg_ppo_batch_size cfg
  ∧ _gradient_accumulation_steps z = cfg_gradient_accumulation_steps cfg
  ∧ _ppo_epochs z = cfg_ppo_epochs cfg
  ∧ (cfg_gradient_accumulation_steps cfg ≠ 0 →
     _ppo_backward_batch_size z
     = cfg_ppo_batch_size cfg / cfg_gradient_accumulation_steps cfg).
Proof.
  unfold _setup_training_parameters. run_recipe.
  repeat (first [case_decide | case_bool_decide
                | destruct (_optimizer_in_bwd s) eqn:?]; simpl;
          try (by repeat split)).
Qed.

(** A configuration that passes [_setup_training_parameters] leaves the
    recipe with sizes that divide one another. *)
Lemma setup_establishes_sizes cfg s :
  (_setup_training_parameters cfg s).1 = inr tt →
  let z := rsizes (_setup_training_parameters cfg s).2 in
  batch_size z mod _forward_batch_size z = 0
  ∧ batch_size z mod _ppo_batch_size z = 0
  ∧ _ppo_batch_size z mod _gradient_accumulation_steps z = 0
  ∧ _ppo_backward_batch_size z
    = _ppo_batch_size z / _gradient_accumulation_steps z.
Proof.
  intros Hok. cbv zeta.
  destruct (setup_sizes cfg s) as (-> & -> & -> & -> & _ & Hbbs).
  rewrite setup_outcome in Hok. cbv zeta in Hok.
  destruct (decide (cfg_gradient_accumulation_steps cfg = 0)); [done|].
  destruct (decide (cfg_forward_batch_size cfg = 0)); [done|].
  destruct (decide (_ `mod` cfg_forward_batch_size cfg ≠ 0)); [done|].
  destruct (decide (cfg_ppo_batch_size cfg = 0)); [done|].
  destruct (decide (_ `mod` cfg_ppo_batch_size cfg ≠ 0)); [done|].
  destruct (decide (_ `mod` cfg_gradient_accumulation_steps cfg ≠ 0));
    [done|].
  rewrite Hbbs by done. repeat split; lia.
Qed.

(** ** Resuming from a checkpoint *)

(** C9: when a checkpoint lacks one of the recipe-state keys,
    [_update_recipe_state] ends in an exception; the [KeyError] of the
    lookup is caught, and the handler, which calls the caught exception
    instance, raises [TypeError] in its place. *)
Theorem update_recipe_state_missing_key (ckpt : ckpt_dict) s k :
  k ∈ required_keys → ckpt !! k = None →
  (_update_recipe_state ckpt s).1 = inl TypeError.
Proof.
  unfold required_keys. intros Hk Hnone.
  unfold _update_recipe_state, try_except, raise_from,
    call_exception_instance, dict_getitem.
  run_recipe.
  repeat (apply elem_of_cons in Hk as [->|Hk]); [..|by apply elem_of_nil in Hk].
  all: rewrite ?Hnone.
  all: destruct (ckpt !! SEED_KEY) as [v1|]; simpl; try done.
  all: destruct (ckpt !! MAX_STEPS_KEY) as [v2|]; simpl;
    repeat (case_decide; simpl); try done.
  all: destruct (ckpt !! TOTAL_EPOCHS_KEY) as [v3|]; simpl;
    repeat (first [case_decide | case_bool_decide]; simpl); try done.
  all: destruct (ckpt !! RNG_KEY) as [v4|]; simpl; try done.
  all: destruct (ckpt !! STEPS_KEY) as [v5|]; simpl; try done.
  all: destruct (ckpt !! EPOCHS_KEY) as [v6|]; simpl; try done.
Qed.

Lemma update_recipe_state_complete (ckpt : ckpt_dict) s :
  (∀ k, k ∈ required_keys → is_Some (ckpt !! k)) →
  (_update_recipe_state ckpt s).1 = inr tt.
Proof.
  unfold required_keys. intros Hall.
  unfold _update_recipe_state, try_except, raise_from,
    call_exception_instance, dict_getitem.
  run_recipe.
  destruct (Hall SEED_KEY) as [v1 ->]; [set_solver|].
  destruct (Hall RNG_KEY) as [v2 ->]; [set_solver|].
  destruct (Hall STEPS_KEY) as [v3 ->]; [set_solver|].
  destruct (Hall MAX_STEPS_KEY) as [v4 ->]; [set_solver|].
  destruct (Hall TOTAL_EPOCHS_KEY) as [v5 ->]; [set_solver|].
  destruct (Hall EPOCHS_KEY) as [v6 ->]; [set_solver|].
  simpl. repeat (first [case_decide | case_bool_decide]; simpl); done.
Qed.

(** ** Checkpoints of the training loop *)

Lemma with_trace_id s : with_trace (trace s) s = s.
Proof. by destruct s. Qed.

Section Quiet.
Context {A B : Type}.

Lemma quiet_ret (a : A) : quiet (ret a).
Proof. intros s. exists []. by rewrite app_nil_r. Qed.

Lemma quiet_raise (e : exn) : quiet (raise (A := A) e).
Proof. intros s. exists []. by rewrite app_nil_r. Qed.

Lemma quiet_lift (r : Py.result A) : quiet (lift r).
Proof. intros s. exists []. by rewrite app_nil_r. Qed.

Lemma quiet_gets (f : recipe → A) : quiet (gets f).
Proof. intros s. exists []. by rewrite app_nil_r. Qed.

Lemma quiet_bind (m : M A) (k : A → M B) :
  quiet m → (∀ a, quiet (k a)) → quiet (bind m k).
Proof.
  intros Hm Hk s. unfold bind. destruct (Hm s) as (evs & Htr & Hevs).
  destruct (m s) as [[e|a] s1]; simpl in *; [by eauto|].
  destruct (Hk a s1) as (evs' & Htr' & Hevs').
  exists (evs ++ evs'). rewrite Htr', Htr, app_assoc.
  split; [done|]. by apply Forall_app.
Qed.
End Quiet.

Lemma quiet_modify_counters f : quiet (modify_counters f).
Proof. intros s. exists []. by rewrite app_nil_r. Qed.

Lemma quiet_emit e : is_save e = false → quiet (emit e).
Proof. intros He s. exists [e]. split; [done|]. by constructor. Qed.

Lemma quiet_when b m : quiet m → quiet (when b m).
Proof. destruct b; [done|]. intros _. apply quiet_ret. Qed.

Lemma quiet_for_each {A} (l : list A) body :
  (∀ x, quiet (body x)) → quiet (for_each l body).
Proof.
  intros Hbody. induction l as [|x l IH]; simpl.
  - apply quiet_ret.
  - apply quiet_bind; [apply Hbody|done].
Qed.

Create HintDb quiet.

#[local] Hint Resolve quiet_ret quiet_raise quiet_lift quiet_gets
  quiet_modify_counters quiet_when quiet_for_each : quiet.

Ltac quiet_steps :=
  repeat first
    [ solve [auto with quiet]
    | apply quiet_emit; reflexivity
    | apply quiet_for_each; intros ?
    | apply quiet_when
    | apply quiet_bind; [|intros ?] ].

Section TrainLemmas.
Variable randperm : Z → Z → Z → list Z.

Lemma quiet_ppo_optimise : quiet (ppo_optimise randperm).
Proof.
  unfold ppo_optimise, ppo_epoch, ppo_minibatch, torch_randperm.
  quiet_steps. case_decide; quiet_steps.
Qed.

Lemma quiet_train_step : quiet (train_step randperm).
Proof.
  pose proof quiet_ppo_optimise. unfold train_step. quiet_steps.
Qed.

Lemma quiet_run_batches n : quiet (run_batches randperm n).
Proof.
  induction n as [|n IH]; simpl; [apply quiet_ret|].
  apply quiet_bind; [apply quiet_train_step|intros _].
  apply quiet_bind; [apply quiet_gets|intros c].
  case_decide; [apply quiet_ret|done].
Qed.

Lemma run_batches_completed n s s' :
  run_batches randperm n s = (inr true, s') →
  _steps_run (rcounters s') = _total_steps (rcounters s').
Proof.
  revert s. induction n as [|n IH]; intros s; simpl; [done|].
  unfold bind at 1. destruct (train_step randperm s) as [[e|[]] s1]; [done|].
  unfold bind, gets. case_decide as Hdone; [|by apply IH].
  unfold ret. by intros [= <-].
Qed.

End TrainLemmas.

Lemma policy_saves_app evs evs' :
  policy_saves (evs ++ evs') = policy_saves evs ++ policy_saves evs'.
Proof.
  induction evs as [|e evs IH]; simpl; [done|].
  destruct e; simpl; by rewrite ?IH.
Qed.

Lemma policy_saves_quiet evs :
  Forall (λ e, is_save e = false) evs → policy_saves evs = [].
Proof. induction 1 as [|e evs He _ IH]; simpl; [done|]. by destruct e. Qed.

Section Checkpoints.
Variable randperm : Z → Z → Z → list Z.

Lemma run_epoch_inv curr_epoch s completed s' :
  run_epoch randperm curr_epoch s = (inr completed, s') →
  ∃ evs d,
    trace s' = trace s ++ evs
      ++ [EvSavePolicy curr_epoch d (negb completed);
          EvSaveValue curr_epoch
            {[ MODEL_KEY := VWeights (value_state_dict s') ]} false]
    ∧ Forall (λ e, is_save e = false) evs
    ∧ (completed = false →
       d !! MODEL_KEY = Some (VWeights (policy_state_dict s'))
       ∧ d !! SEED_KEY = Some (VInt (seed (rcounters s')))
       ∧ d !! EPOCHS_KEY = Some (VInt (_epochs_run (rcounters s')))
       ∧ d !! TOTAL_EPOCHS_KEY
         = Some (VInt (_total_epochs (rcounters s')))
       ∧ d !! MAX_STEPS_KEY = Some (VInt (_total_steps (rcounters s')))
       ∧ d !! STEPS_KEY = Some (VInt (_steps_run (rcounters s')))
       ∧ d !! RNG_KEY = Some (VRng (_rng (rcounters s')))
       ∧ d !! DATALOADER_KEY
         = Some (VDataloader (dataloader_state_dict s'))
       ∧ d !! OPT_KEY
         = Some (VOptimizer
                   (if _optimizer_in_bwd s'
                    then optim_ckpt_wrapper_state_dict s'
                    else optimizer_state_dict s')))
    ∧ (completed = true →
       d = {[ MODEL_KEY := VWeights (policy_state_dict s') ]}
       ∧ _steps_run (rcounters s') = _total_steps (rcounters s')).
Proof.
  unfold run_epoch. unfold bind at 1, gets at 1.
  unfold bind at 1.
  destruct (quiet_run_batches randperm (dataloader_len s) s)
    as (evs & Htrace & Hquiet).
  pose proof (run_batches_completed randperm (dataloader_len s) s) as Hdone.
  destruct (run_batches randperm (dataloader_len s) s)
    as [[e|done_] s1]; [done|].
  simpl in Htrace. unfold save_checkpoint. run_recipe.
  intros [= <- <-]. simpl. rewrite Htrace.
  exists evs. eexists. split; [by rewrite <- !app_assoc|].
  split; [done|]. split.
  - intros ->. simpl. destruct (_optimizer_in_bwd s1); simpl; done.
  - intros ->. simpl. split; [done|]. by apply Hdone.
Qed.

Lemma run_epochs_saves epochs s s' :
  run_epochs randperm epochs s = (inr tt, s') →
  ∃ evs, trace s' = trace s ++ evs
    ∧ (policy_saves evs = (λ e, (e, true)) <$> epochs
       ∨ ∃ k last, epochs !! k = Some last
           ∧ _steps_run (rcounters s') = _total_steps (rcounters s')
           ∧ policy_saves evs
             = ((λ e, (e, true)) <$> take k epochs) ++ [(last, false)]).
Proof.
  revert s. induction epochs as [|e epochs IH]; intros s; simpl.
  - intros [= <-]. exists []. rewrite app_nil_r. by split; [|left].
  - unfold bind at 1.
    destruct (run_epoch randperm e s) as [[x|completed] s1] eqn:Hepoch;
      [done|].
    destruct (run_epoch_inv _ _ _ _ Hepoch)
      as (evs & d & Htrace & Hquiet & _ & Hfinal).
    assert (Hsaves : ∀ rest,
      policy_saves ((evs ++ [EvSavePolicy e d (negb completed);
        EvSaveValue e {[ MODEL_KEY := VWeights (value_state_dict s1) ]}
          false]) ++ rest)
      = (e, negb completed) :: policy_saves rest).
    { intros rest. rewrite !policy_saves_app.
      by rewrite (policy_saves_quiet _ Hquiet). }
    destruct completed.
    + intros [= <-]. eexists. split; [by rewrite Htrace|].
      right. exists 0%nat, e. split; [done|].
      split; [by apply Hfinal|].
      specialize (Hsaves []). by rewrite app_nil_r in Hsaves.
    + intros Hrest. destruct (IH _ Hrest) as (evs' & Htrace' & Hshape).
      eexists. split.
      { rewrite Htrace', Htrace. rewrite <- app_assoc. reflexivity. }
      rewrite Hsaves. simpl.
      destruct Hshape as [->|(k & last & Hk & Hdone & ->)]; [by left|].
      right. exists (S k), last. by repeat split.
Qed.

End Checkpoints.

(** ** The PPO epochs of a training step *)

Lemma range_multiples (stop step : Z) (k : nat) :
  0 < step → stop = Z.of_nat k * step →
  Py.range 0 stop step
  = inr ((λ i : nat, 0 + Z.of_nat i * step) <$> seq 0 k).
Proof.
  intros Hstep ->. unfold Py.range.
  rewrite decide_False by lia. rewrite decide_True by done.
  replace (Z.of_nat k * step - 0 + step - 1)
    with (Z.of_nat k * step + (step - 1)) by lia.
  rewrite Z.div_add_l by lia. rewrite (Z.div_small (step - 1)) by lia.
  by rewrite Z.add_0_r, Nat2Z.id.
Qed.

Lemma slice_length {A} (l : list A) (a w : Z) :
  0 ≤ a → 0 ≤ w → a + w ≤ Z.of_nat (length l) →
  Z.of_nat (length (Py.slice l a (a + w))) = w.
Proof.
  intros Ha Hw Hlen. unfold Py.slice, Py.clamp.
  rewrite !decide_False by lia.
  rewrite length_take, length_drop. lia.
Qed.

Lemma for_each_emit {A} (g : A → event) (l : list A) s :
  for_each l (λ x, emit (g x)) s
  = (inr tt, with_trace (trace s ++ (g <$> l)) s).
Proof.
  revert s. induction l as [|x l IH]; intros s; simpl.
  - by rewrite app_nil_r, with_trace_id.
  - unfold bind, emit, modify. rewrite IH. simpl.
    by rewrite <- app_assoc.
Qed.

Lemma after_minibatches_refl s : after_minibatches 0 s s.
Proof.
  repeat split; [lia|]. exists []. simpl. by rewrite app_nil_r.
Qed.

Lemma after_minibatches_trans n m s1 s2 s3 :
  after_minibatches n s1 s2 → after_minibatches m s2 s3 →
  after_minibatches (n + m) s1 s3.
Proof.
  intros (Hz & Hbwd & Hlr & Hlog & Hdl & Hgs & mbs & Hlen & Hmbs & Htr)
    (Hz' & Hbwd' & Hlr' & Hlog' & Hdl' & Hgs' & mbs' & Hlen' & Hmbs' & Htr').
  rewrite Hz in Hmbs'.
  repeat split; [congruence..|lia|].
  exists (mbs ++ mbs'). rewrite length_app, concat_app, Htr', Htr.
  split; [lia|]. split; [by apply Forall_app|]. by rewrite app_assoc.
Qed.

Lemma ready_after randperm n s s' :
  ready randperm s → after_minibatches n s s' → ready randperm s'.
Proof.
  unfold ready. intros Hready (Hz & Hbwd & Hlr & _). by rewrite Hz, Hbwd, Hlr.
Qed.

Section PPOEpochs.
Variable randperm : Z → Z → Z → list Z.

Lemma for_each_advances {A} (l : list A) (body : A → M unit)
  (Q : A → Prop) (m : nat) (z : sizes) s :
  (∀ x s1, Q x → ready randperm s1 → rsizes s1 = z →
     ∃ s2, body x s1 = (inr tt, s2) ∧ after_minibatches m s1 s2) →
  Forall Q l → ready randperm s → rsizes s = z →
  ∃ s', for_each l body s = (inr tt, s')
        ∧ after_minibatches (length l * m) s s'.
Proof.
  intros Hbody Hl. revert s.
  induction Hl as [|x l Hx _ IH]; intros s Hready Hz; simpl.
  - eexists. split; [done|]. apply after_minibatches_refl.
  - destruct (Hbody x s Hx Hready Hz) as (s1 & Hrun & Hadv).
    destruct (IH s1) as (s2 & Hrun' & Hadv').
    { by eapply ready_after. }
    { destruct Hadv as [-> _]. done. }
    exists s2. unfold bind. rewrite Hrun. split; [done|].
    by eapply after_minibatches_trans.
Qed.

Lemma ppo_minibatch_run (batch_idxs : list Z) (i : Z) s :
  0 ≤ i →
  i + _ppo_batch_size (rsizes s) ≤ Z.of_nat (length batch_idxs) →
  ready randperm s →
  ∃ s', ppo_minibatch batch_idxs i s = (inr tt, s')
        ∧ after_minibatches 1 s s'.
Proof.
  intros Hi Hfit (Hbwd & Hlr & Hbs & Hppo & Hgas & _ & Hdiv & Hbbs & _).
  set (z := rsizes s) in *.
  set (w := _ppo_backward_batch_size z) in *.
  assert (Hsplit : _ppo_batch_size z
                   = Z.of_nat (Z.to_nat (_gradient_accumulation_steps z))
                     * w).
  { rewrite Z2Nat.id by lia. rewrite Hbbs.
    apply Z.div_exact in Hdiv; lia. }
  assert (Hw : 0 < w) by nia.
  unfold ppo_minibatch. unfold bind at 1, gets at 1. fold z. fold w.
  unfold bind at 1, lift at 1.
  rewrite (range_multiples _ _ _ Hw Hsplit).
  unfold bind at 1. rewrite for_each_emit.
  unfold bind, gets, when, emit, modify, modify_counters, ret. simpl.
  rewrite Hbwd. simpl. rewrite Hlr. simpl.
  eexists. split; [done|].
  repeat split; simpl.
  eexists [_]. split; [done|]. simpl. rewrite app_nil_r.
  split; [|by rewrite <- !app_assoc].
  apply Forall_singleton. fold z. rewrite <- Hbbs. fold w.
  exists ((λ j, Py.slice (Py.slice batch_idxs i (i + _ppo_batch_size z))
                 j (j + w))
            <$> ((λ k : nat, 0 + Z.of_nat k * w)
                   <$> seq 0 (Z.to_nat (_gradient_accumulation_steps z)))).
  split; [|split; [|f_equal; exact (list_fmap_compose _ EvBackward _)]].
  - rewrite !length_fmap, length_seq. lia.
  - apply Forall_fmap, Forall_fmap, Forall_forall.
    intros k Hk%elem_of_seq. simpl.
    replace (0 + Z.of_nat k * w + w) with (Z.of_nat k * w + w) by lia.
    replace (0 + Z.of_nat k * w) with (Z.of_nat k * w) by lia.
    apply slice_length; [nia|lia|].
    rewrite slice_length; [nia|lia|lia|lia].
Qed.

Lemma ppo_epoch_run (k : Z) s :
  ready randperm s →
  ∃ s', ppo_epoch randperm k s = (inr tt, s')
        ∧ after_minibatches
            (Z.to_nat (batch_size (rsizes s) / _ppo_batch_size (rsizes s)))
            s s'.
Proof.
  intros Hready.
  pose proof Hready as (_ & _ & Hbs & Hppo & _ & Hdiv & _ & _ & Hperm).
  set (z := rsizes s) in *.
  set (n := Z.to_nat (batch_size z / _ppo_batch_size z)).
  assert (Hsplit : batch_size z = Z.of_nat n * _ppo_batch_size z).
  { unfold n. rewrite Z2Nat.id by (apply Z.div_pos; lia).
    apply Z.div_exact in Hdiv; lia. }
  unfold ppo_epoch. unfold bind at 1, gets at 1. fold z.
  unfold bind at 1, gets at 1. unfold bind at 1, torch_randperm.
  rewrite decide_False by lia. unfold ret at 1.
  unfold bind at 1, lift at 1.
  rewrite (range_multiples _ _ _ Hppo Hsplit).
  destruct (for_each_advances
    ((λ i : nat, 0 + Z.of_nat i * _ppo_batch_size z) <$> seq 0 n)
    (ppo_minibatch (randperm (_steps_run (rcounters s)) k (batch_size z)))
    (λ i, 0 ≤ i ∧ i + _ppo_batch_size z ≤ batch_size z) 1 z s)
    as (s' & Hrun & Hadv); [| |done|done|].
  - intros i s1 [Hi Hfit] Hready1 Hz1.
    apply ppo_minibatch_run; [done| |done].
    rewrite Hperm, Hz1. lia.
  - apply Forall_fmap, Forall_forall. intros i Hi%elem_of_seq. simpl. nia.
  - exists s'. split; [done|].
    by rewrite length_fmap, length_seq, Nat.mul_1_r in Hadv.
Qed.

Lemma ppo_optimise_run s :
  ready randperm s → 0 ≤ _ppo_epochs (rsizes s) →
  ∃ s', ppo_optimise randperm s = (inr tt, s')
        ∧ after_minibatches
            (Z.to_nat (_ppo_epochs (rsizes s)
                       * (batch_size (rsizes s)
                          / _ppo_batch_size (rsizes s))))
            s s'.
Proof.
  intros Hready Hepochs.
  pose proof Hready as (_ & _ & Hbs & Hppo & _).
  set (z := rsizes s) in *.
  unfold ppo_optimise. unfold bind at 1, gets at 1. fold z.
  unfold bind at 1, lift at 1.
  rewrite (range_multiples _ 1 (Z.to_nat (_ppo_epochs z))) by lia.
  destruct (for_each_advances
    ((λ i : nat, 0 + Z.of_nat i * 1) <$> seq 0 (Z.to_nat (_ppo_epochs z)))
    (ppo_epoch randperm) (λ _, True)
    (Z.to_nat (batch_size z / _ppo_batch_size z)) z s)
    as (s' & Hrun & Hadv); [| |done|done|].
  - intros k s1 _ Hready1 Hz1. rewrite <- Hz1. by apply ppo_epoch_run.
  - by apply Forall_true.
  - exists s'. split; [done|].
    rewrite length_fmap, length_seq in Hadv.
    rewrite Z2Nat.inj_mul; [done|lia|]. apply Z.div_pos; lia.
Qed.

End PPOEpochs.

Lemma count_events_app p evs evs' :
  count_events p (evs ++ evs')
  = (count_events p evs + count_events p evs')%nat.
Proof. unfold count_events. by rewrite filter_app, length_app. Qed.

Lemma count_events_backwards (microbatches : list (list Z)) :
  count_events is_backward (EvBackward <$> microbatches)
  = length microbatches
  ∧ count_events is_optimizer_step (EvBackward <$> microbatches) = 0%nat
  ∧ count_events is_scheduler_step (EvBackward <$> microbatches) = 0%nat.
Proof.
  unfold count_events.
  induction microbatches as [|idxs l (IH1 & IH2 & IH3)]; csimpl; [done|].
  rewrite IH1. split; [done|]. by rewrite !filter_cons_False.
Qed.

Lemma count_events_minibatch accum width evs :
  is_minibatch accum width evs →
  count_events is_optimizer_step evs = 1%nat
  ∧ count_events is_scheduler_step evs = 1%nat
  ∧ Z.of_nat (count_events is_backward evs) = accum.
Proof.
  intros (microbatches & Hlen & _ & ->). rewrite !count_events_app.
  destruct (count_events_backwards microbatches) as (-> & -> & ->).
  repeat split. simpl. change (count_events is_backward _) with 0%nat. lia.
Qed.

Lemma count_events_minibatches accum width (minibatches : list (list event)) :
  Forall (is_minibatch accum width) minibatches →
  count_events is_optimizer_step (concat minibatches) = length minibatches
  ∧ count_events is_scheduler_step (concat minibatches) = length minibatches
  ∧ Z.of_nat (count_events is_backward (concat minibatches))
    = Z.of_nat (length minibatches) * accum.
Proof.
  induction 1 as [|evs l Hevs _ (IH1 & IH2 & IH3)]; simpl; [done|].
  destruct (count_events_minibatch _ _ _ Hevs) as (H1 & H2 & H3).
  rewrite !count_events_app, H1, H2, IH1, IH2. repeat split. lia.
Qed.

(** C1: with the optimizer outside the backward pass, a scheduler
    configured, and positive sizes that passed validation, the PPO epochs
    of one training step run [ppo_epochs * (batch_size / ppo_batch_size)]
    minibatches.  Each minibatch is [gradient_accumulation_steps]
    backward passes over microbatches of
    [ppo_batch_size / gradient_accumulation_steps] rows followed by one
    optimizer step and one scheduler step, and [global_step] grows by one
    per minibatch. *)
Theorem one_optimizer_step_per_minibatch randperm s :
  let z := rsizes s in
  let accum := _gradient_accumulation_steps z in
  let n := Z.to_nat (_ppo_epochs z * (batch_size z / _ppo_batch_size z)) in
  _optimizer_in_bwd s = false →
  _lr_scheduler s = true →
  0 < batch_size z → 0 < _ppo_batch_size z → 0 < accum →
  0 ≤ _ppo_epochs z →
  batch_size z mod _ppo_batch_size z = 0 →
  _ppo_batch_size z mod accum = 0 →
  _ppo_backward_batch_size z = _ppo_batch_size z / accum →
  (∀ i k, length (randperm i k (batch_size z)) = Z.to_nat (batch_size z)) →
  ∃ s' (minibatches : list (list event)),
    ppo_optimise randperm s = (inr tt, s')
    ∧ trace s' = trace s ++ concat minibatches
    ∧ length minibatches = n
    ∧ Forall (is_minibatch accum (_ppo_batch_size z / accum)) minibatches
    ∧ count_events is_optimizer_step (concat minibatches) = n
    ∧ count_events is_scheduler_step (concat minibatches) = n
    ∧ Z.of_nat (count_events is_backward (concat minibatches))
      = Z.of_nat n * accum
    ∧ global_step (rcounters s') = global_step (rcounters s) + Z.of_nat n.
Proof.
  intros z accum n Hbwd Hlr Hbs Hppo Haccum Hepochs Hdiv Hdiv' Hbbs Hperm.
  destruct (ppo_optimise_run randperm s) as (s' & Hrun & Hadv);
    [by repeat split|done|].
  destruct Hadv
    as (_ & _ & _ & _ & _ & Hgs & minibatches & Hlen & Hmbs & Htrace).
  destruct (count_events_minibatches _ _ _ Hmbs) as (H1 & H2 & H3).
  exists s', minibatches. fold z accum n in Hlen, Hgs, Hmbs, H1, H2, H3.
  rewrite Hlen in H1, H2, H3. by repeat split.
Qed.

(** ** The epoch loop returns *)

Section EpochReturns.
Variable randperm : Z → Z → Z → list Z.

Lemma train_step_run s :
  runnable randperm s →
  ∃ s', train_step randperm s = (inr tt, s')
        ∧ runnable randperm s' ∧ dataloader_len s' = dataloader_len s.
Proof.
  intros (Hready & Hepochs & Hlog).
  set (s0 := with_trace (trace s ++ [EvGenerateTrajectory]) s).
  assert (Hready0 : ready randperm s0) by done.
  destruct (ppo_optimise_run randperm s0 Hready0 Hepochs)
    as (s1 & Hrun & Hadv).
  pose proof (ready_after _ _ _ _ Hready0 Hadv) as Hready1.
  destruct Hadv as (Hz & _ & _ & Hlog1 & Hlen & _).
  unfold train_step. unfold bind at 1, emit at 1, modify at 1.
  fold s0. unfold bind at 1. rewrite Hrun.
  unfold bind, modify_counters, modify, gets, lift, Py.mod_, when, emit, ret.
  simpl. rewrite Hlog1. simpl. rewrite decide_False by done. simpl.
  unfold runnable.
  case_bool_decide; simpl; eexists; (split; [reflexivity|]);
    (split; [split; [exact Hready1|]|]); simpl;
    rewrite ?Hz, ?Hlog1, ?Hlen; done.
Qed.

Lemma run_batches_run n s :
  runnable randperm s →
  ∃ completed s', run_batches randperm n s = (inr completed, s').
Proof.
  revert s. induction n as [|n IH]; intros s Hs; simpl; [by eauto|].
  destruct (train_step_run s Hs) as (s1 & Hrun & Hs1 & _).
  unfold bind at 1. rewrite Hrun. unfold bind, gets.
  case_decide; [by eauto|]. by apply IH.
Qed.

Lemma run_epoch_returns curr_epoch s :
  runnable randperm s →
  ∃ completed s', run_epoch randperm curr_epoch s = (inr completed, s').
Proof.
  intros Hs. unfold run_epoch. unfold bind at 1, gets at 1.
  destruct (run_batches_run (dataloader_len s) s Hs)
    as (completed & s1 & Hrun).
  unfold bind at 1. rewrite Hrun.
  unfold save_checkpoint.
  unfold bind, modify_counters, modify, gets, emit, ret. simpl. eauto.
Qed.

End EpochReturns.


(** ** The worked instance *)

Ltac no_stop_token :=
  repeat (apply Forall_cons_2;
          [by intros ?%list_elem_of_singleton|]);
  apply Forall_nil_2.

(** [Example.traj] is what [generate_trajectory] returns on the
    instance. *)
Lemma example_trajectory :
  generate_trajectory Example.hp Example.models modelled_helpers
    Example.input_ids = inr Example.traj.
Proof. reflexivity. Qed.

(** The scenario [batch_size = 8], [forward_batch_size = 4],
    [ppo_batch_size = 4], [gradient_accumulation_steps = 2],
    [ppo_epochs = 2]: four minibatches, each of two backward passes over
    two rows, four optimizer steps. *)
Lemma one_optimizer_step_per_minibatch_witness :
  ∃ s' (minibatches : list (list event)),
    ppo_optimise Example.randperm Example.recipe0 = (inr tt, s')
    ∧ trace s' = concat minibatches
    ∧ length minibatches = 4%nat
    ∧ Forall (is_minibatch 2 2) minibatches
    ∧ count_events is_optimizer_step (concat minibatches) = 4%nat
    ∧ count_events is_scheduler_step (concat minibatches) = 4%nat
    ∧ Z.of_nat (count_events is_backward (concat minibatches)) = 8
    ∧ global_step (rcounters s') = 4.
Proof.
  apply (one_optimizer_step_per_minibatch Example.randperm Example.recipe0);
    simpl; try reflexivity; lia.
Defined.

(** Row 0 of the instance, [5 6 7], holds no stop token. *)
Lemma row_without_stop_token_witness :
  seq_lens Example.traj !! 0%nat = Some 2
  ∧ response_padding_masks Example.traj !! 0%nat
    = Some [false; false; false]
  ∧ value_seq_idxs Example.traj !! 0%nat = seq_lens Example.traj !! 0%nat.
Proof.
  apply (proj2 (row_without_stop_token Example.hp Example.models
                  Example.input_ids Example.traj 0) [5; 6; 7]).
  - reflexivity.
  - reflexivity.
  - no_stop_token.
  - reflexivity.
Defined.

(** Row 0 of the instance holds no stop token among its three generated
    tokens, yet its sequence length is 2, not 3; were sequence lengths
    counts of valid tokens, [generate_trajectory] would raise on the
    instance. *)
Lemma seq_lens_is_not_max_generated_tokens :
  generate_trajectory Example.hp Example.models modelled_helpers
    Example.input_ids = inr Example.traj
  ∧ generated_span (query_responses Example.traj)
      (context_length_of Example.input_ids) !! 0%nat = Some [5; 6; 7]
  ∧ Forall (λ t, t ∉ _stop_token_ids Example.hp) [5; 6; 7]
  ∧ _max_generated_tokens Example.hp = 3
  ∧ seq_lens Example.traj !! 0%nat = Some 2
  ∧ seq_lens Example.traj !! 0%nat
    ≠ Some (_max_generated_tokens Example.hp)
  ∧ generate_trajectory Example.hp Example.models counting_helpers
      Example.input_ids = inl RuntimeError.
Proof.
  repeat split; try reflexivity; try discriminate.
  no_stop_token.
Qed.

(** Row 1 of the instance is padded from position 1 on. *)
Lemma masked_positions_hold_sentinels_witness :
  (entry (logprobs Example.traj) 1 2 = Some 1%Q
   ∧ entry (ref_logprobs Example.traj) 1 2 = Some 1%Q)
  ∧ entry (values Example.traj) 1 2 = Some 0%Q
  ∧ ∃ pi_logprobs phi_values,
      pi_logprobs_of Example.models Example.traj 2 = inr pi_logprobs
      ∧ phi_values_of Example.models Example.traj 2 = inr phi_values
      ∧ entry pi_logprobs 1 2 = Some 1%Q
      ∧ entry phi_values 1 2 = Some 0%Q.
Proof.
  destruct (masked_positions_hold_sentinels Example.hp Example.models
              modelled_helpers) as (Hgen & Hstep & _).
  destruct (Hgen Example.input_ids Example.traj 1%nat 2%nat eq_refl)
    as [Hlog Hval].
  split; [exact (Hlog eq_refl)|]. split; [exact (Hval eq_refl)|].
  destruct (ppo_step Example.models 2 Example.traj Example.advantages
              Example.advantages 2) as [e|stats] eqn:Hrun;
    [discriminate Hrun|].
  destruct (Hstep _ _ _ _ _ _ 1%nat 2%nat Hrun)
    as (pi & phi & Hpi & Hphi & _ & Hpi1 & Hphi0).
  exists pi, phi. repeat split; [exact Hpi|exact Hphi|..].
  - exact (Hpi1 eq_refl).
  - exact (Hphi0 eq_refl).
Defined.




(** Rows 1 and 2 of the instance. *)
Lemma value_mask_within_response_mask_witness :
  (entry (value_padding_masks Example.traj) 1 1 = Some true →
   entry (response_padding_masks Example.traj) 1 1 = Some true)
  ∧ entry (value_padding_masks Example.traj) 2 1
    = entry (response_padding_masks Example.traj) 2 1.
Proof.
  destruct (value_mask_within_response_mask Example.hp Example.models
              modelled_helpers Example.input_ids Example.traj eq_refl)
    as (Hsub & _ & Hsame).
  split; [apply Hsub|]. apply Hsame. discriminate.
Defined.



(** A checkpoint without the seed. *)
Lemma update_recipe_state_missing_key_witness :
  (_update_recipe_state Example.ckpt_without_seed Example.recipe0).1
  = inl TypeError.
Proof.
  apply (update_recipe_state_missing_key _ _ SEED_KEY).
  - unfold required_keys. constructor.
  - reflexivity.
Defined.

(** Row 2 of the instance (sequence length 1, value index 2) and row 1
    (stop token first, sequence length 0). *)
Lemma value_mask_cleared_at_value_seq_idx_witness :
  entry (value_padding_masks Example.traj) 2 2 = Some false
  ∧ entry (value_padding_masks Example.traj) 1 0 = Some false.
Proof.
  destruct (value_mask_cleared_at_value_seq_idx Example.hp Example.models
              modelled_helpers Example.input_ids Example.traj eq_refl)
    as [Hclear Hrow].
  split.
  - exact (proj2 (Hclear 2%nat 2 eq_refl)).
  - exact (proj2 (Hrow 1%nat 0 eq_refl) eq_refl).
Defined.
